(** * Session retrieval (claude2_api/session.py): a shallow embedding

    The module drives a Firefox instance through Selenium, reads the
    cookies and the user agent of a fixed page and returns them as a
    frozen dataclass.  Around that it scans the host filesystem for the
    default Firefox profile and sweeps stale temporary directories.

    The Python functions are embedded as computations in a small monad
    that threads the mutable part of the host (environment variables and
    filesystem), may raise a Python exception, and records every call
    that leaves the interpreter (filesystem, console, browser driver) in a
    log.  The browser and the rest of the host are a scripted oracle. *)

From Stdlib Require Import String Ascii List Bool.
From stdpp Require Import base option list gmap strings pretty.

(** ** Python strings *)

Module Str.

(** [s.startswith(p)] *)
Definition startswith (s p : string) : bool := String.prefix p s.

(** [s.endswith(p)] *)
Definition endswith (s p : string) : bool :=
  String.prefix (String.rev p) (String.rev s).

(** [s.find(sub) == -1] *)
Definition find_fails (s sub : string) : bool :=
  match String.index 0 sub s with
  | Some _ => false
  | None => true
  end.

(** [not s] for a [str] *)
Definition falsy (s : string) : bool := String.eqb s "".

(** [not v] for a value that is a [str] or [None] *)
Definition falsy_opt (v : option string) : bool :=
  match v with
  | None => true
  | Some s => falsy s
  end.

(** [f"{v}"] for a value that is a [str] or [None] *)
Definition format_opt (v : option string) : string :=
  match v with
  | None => "None"
  | Some s => s
  end.

(** the last character of [s], if any *)
Fixpoint last (s : string) : option ascii :=
  match s with
  | EmptyString => None
  | String c EmptyString => Some c
  | String _ r => last r
  end.

(** [s.rstrip(c)] for a single character [c] *)
Fixpoint lstrip (c : ascii) (s : string) : string :=
  match s with
  | String d r => if Ascii.eqb d c then lstrip c r else s
  | EmptyString => EmptyString
  end.
Definition rstrip (c : ascii) (s : string) : string :=
  String.rev (lstrip c (String.rev s)).

(** [sep.join(parts)] *)
Definition join (sep : string) (parts : list string) : string :=
  String.concat sep parts.

(** [c] occurs in [s] *)
Fixpoint mem (c : ascii) (s : string) : bool :=
  match s with
  | EmptyString => false
  | String d r => Ascii.eqb d c || mem c r
  end.

End Str.

(** ** Exceptions and results *)

Inductive exn : Type :=
| KeyError (key : string)
| TypeError (msg : string)
| IndexError (msg : string)
| RuntimeError (msg : string)
| FileNotFoundError (path : string)
| NotADirectoryError (path : string)
| PermissionError (path : string)
| WebDriverException (msg : string)
| ScreenInfoError (msg : string)
| FrozenInstanceError (msg : string).

Inductive result (A : Type) : Type :=
| Ok (a : A)
| Raise (e : exn).
Arguments Ok {A} a.
Arguments Raise {A} e.

Definition is_ok {A} (r : result A) : bool :=
  match r with Ok _ => true | Raise _ => false end.

(** ** Paths *)

Module Path.

(** [posixpath.join(a, b)] *)
Definition posix_join (a b : string) : string :=
  if Str.startswith b "/" then b
  else if Str.falsy a || Str.endswith a "/" then a +:+ b
  else a +:+ "/" +:+ b.

(** [ntpath.join(a, b)] for a second component that carries neither a
    drive nor a leading separator (every second argument this module
    passes is a literal of that shape or a name out of [os.listdir]).
    A separator is added unless the first component is empty, already
    ends in one, or is a bare drive such as [C:]. *)
Definition is_bare_drive (a : string) : bool :=
  match a with
  | String _ (String ":" EmptyString) => true
  | _ => false
  end.
Definition ends_with_nt_sep (a : string) : bool :=
  match Str.last a with
  | Some "\" => true
  | Some "/" => true
  | _ => false
  end%char.
Definition nt_join (a b : string) : string :=
  if Str.falsy a || ends_with_nt_sep a || is_bare_drive a then a +:+ b
  else a +:+ "\" +:+ b.

End Path.

(** ** The filesystem

    A flat store from full path to node.  A directory carries its entry
    names in the order [os.listdir] reports them, and a flag telling
    whether removing it fails (no permission, in use, a symbolic link).
    The child [x] of directory [d] lives at [d ++ sep ++ x]. *)

Inductive node : Type :=
| File
| Dir (entries : list string) (locked : bool).

Abbreviation FS := (gmap string node).

Module Fs.

Definition child (sep d x : string) : string := d +:+ sep +:+ x.

(** [k] lies strictly below [p] *)
Definition under (sep p k : string) : bool := String.prefix (p +:+ sep) k.

Definition listdir (fs : FS) (p : string) : result (list string) :=
  match fs !! p with
  | Some (Dir l _) => Ok l
  | Some File => Raise (NotADirectoryError p)
  | None => Raise (FileNotFoundError p)
  end.

Definition isdir (fs : FS) (p : string) : bool :=
  match fs !! p with
  | Some (Dir _ _) => true
  | _ => false
  end.

Definition exists_ (fs : FS) (p : string) : bool :=
  match fs !! p with
  | Some _ => true
  | None => false
  end.

(** dropping the name of [p] from the directory [d] that lists it *)
Definition unlink (sep p d : string) (n : node) : node :=
  match n with
  | File => File
  | Dir l lk => Dir (filter (λ x, child sep d x ≠ p) l) lk
  end.

(** the store once the tree rooted at [p] is gone *)
Definition remove_tree (sep p : string) (fs : FS) : FS :=
  map_imap (λ k n,
    if decide (k = p) then None
    else if under sep p k then None
    else Some (unlink sep p k n)) fs.

(** [shutil.rmtree(p)]: a locked directory raises and stays as it is *)
Definition rmtree (sep : string) (fs : FS) (p : string) : result unit * FS :=
  match fs !! p with
  | Some (Dir _ false) => (Ok tt, remove_tree sep p fs)
  | Some (Dir _ true) => (Raise (PermissionError p), fs)
  | Some File => (Raise (NotADirectoryError p), fs)
  | None => (Raise (FileNotFoundError p), fs)
  end.

End Fs.

(** ** The host: what the interpreter finds outside the module *)

(** [FirefoxOptions]: the profile assigned to it, the command-line
    arguments and the preferences, in the order they were set *)
Inductive pref : Type :=
| PrefBool (b : bool)
| PrefStr (s : string).

Record Options : Type := {
  o_profile : option string;
  o_arguments : list string;
  o_preferences : list (string * pref)
}.

(** a cookie as [driver.get_cookies()] hands it over: a dict; the keys
    read here, [name] and [value], hold strings *)
Abbreviation cookie_dict := (gmap string string).

(** a [screeninfo] monitor *)
Record Monitor : Type := { m_width : Z; m_height : Z }.

(** The scripted browser: how each driver call ends.  [br_launch] is the
    [webdriver.Firefox] constructor ([true] for the selenium-wire one),
    which leaves temporary directories behind ([br_launch_fs]). *)
Record Browser : Type := {
  br_launch : bool → Options → option exn;
  br_launch_fs : FS → FS;
  br_get : string → option exn;
  br_implicitly_wait : nat → option exn;
  br_execute_script : string → result (option string);
  br_get_cookies : result (list cookie_dict);
  br_quit : option exn
}.

Record Host : Type := {
  h_system : string;                     (* platform.system() *)
  h_pw_dir : option string;              (* pwd.getpwuid(os.getuid()).pw_dir *)
  h_which : string → option string;      (* shutil.which *)
  h_monitors : result (list Monitor);    (* screeninfo.get_monitors() *)
  h_browser : Browser
}.

(** what a call may change: [os.environ] and the filesystem *)
Record State : Type := {
  environ : gmap string string;
  fs : FS
}.

Definition set_fs (f : FS) (σ : State) : State :=
  {| environ := environ σ; fs := f |}.
Definition set_environ (e : gmap string string) (σ : State) : State :=
  {| environ := e; fs := fs σ |}.

(** calls that leave the interpreter, in the order they are made *)
Inductive event : Type :=
| EvPrint (line : string)
| EvExists (p : string)
| EvListdir (p : string)
| EvIsdir (p : string)
| EvRmtree (p : string)
| EvLaunch (wire : bool) (opts : Options)
| EvGet (url : string)
| EvImplicitlyWait (seconds : nat)
| EvExecuteScript (script : string)
| EvGetCookies
| EvQuit.

Definition is_fs_event (e : event) : bool :=
  match e with
  | EvExists _ | EvListdir _ | EvIsdir _ | EvRmtree _ => true
  | _ => false
  end.

(** what the [try] block of the retrieval may ask of the driver *)
Definition is_page_event (e : event) : bool :=
  match e with
  | EvGet _ | EvImplicitlyWait _ | EvExecuteScript _ | EvGetCookies => true
  | _ => false
  end.

(** what happens on the host, away from the driver *)
Definition is_host_event (e : event) : bool :=
  match e with
  | EvPrint _ | EvExists _ | EvListdir _ | EvIsdir _ | EvRmtree _ => true
  | _ => false
  end.

Definition is_driver_event (e : event) : bool :=
  match e with
  | EvLaunch _ _ | EvGet _ | EvImplicitlyWait _ | EvExecuteScript _
  | EvGetCookies | EvQuit => true
  | _ => false
  end.

(** ** The monad: state, exception, log *)

Definition M (A : Type) : Type := State → result A * State * list event.

Definition ret {A} (a : A) : M A := λ σ, (Ok a, σ, []).

Definition bind {A B} (m : M A) (k : A → M B) : M B := λ σ,
  match m σ with
  | (Ok a, σ1, t1) =>
      match k a σ1 with
      | (r, σ2, t2) => (r, σ2, t1 ++ t2)
      end
  | (Raise e, σ1, t1) => (Raise e, σ1, t1)
  end.

Definition raise {A} (e : exn) : M A := λ σ, (Raise e, σ, []).

Definition lift {A} (r : result A) : M A := λ σ, (r, σ, []).

Definition emit (e : event) : M unit := λ σ, (Ok tt, σ, [e]).

(** [try: body finally: fin]: [fin] runs however [body] ends; when [fin]
    raises, its exception replaces the outcome of [body] *)
Definition try_finally {A} (body : M A) (fin : M unit) : M A := λ σ,
  match body σ with
  | (r, σ1, t1) =>
      match fin σ1 with
      | (Ok _, σ2, t2) => (r, σ2, t1 ++ t2)
      | (Raise e, σ2, t2) => (Raise e, σ2, t1 ++ t2)
      end
  end.

Declare Scope py_scope.
Delimit Scope py_scope with py.
Notation "x ← m ; k" := (bind m (λ x, k))
  (at level 20, m at level 100, k at level 200, only parsing) : py_scope.
Notation "m ;; k" := (bind m (λ _, k))
  (at level 100, k at level 200, only parsing, right associativity) : py_scope.
Local Open Scope py_scope.

Definition res {A} (o : result A * State * list event) : result A := o.1.1.
Definition final {A} (o : result A * State * list event) : State := o.1.2.
Definition log {A} (o : result A * State * list event) : list event := o.2.

(** the exception an oracle scripts for a call, if any *)
Definition outcome (o : option exn) : result unit :=
  match o with
  | None => Ok tt
  | Some e => Raise e
  end.

(** every element through a fallible function, stopping at the first
    exception (a list comprehension) *)
Fixpoint comprehension {A B} (f : A → result B) (l : list A) : result (list B) :=
  match l with
  | [] => Ok []
  | x :: r =>
      match f x with
      | Raise e => Raise e
      | Ok y =>
          match comprehension f r with
          | Raise e => Raise e
          | Ok ys => Ok (y :: ys)
          end
      end
  end.

(** [d[k]] *)
Definition getitem (d : gmap string string) (k : string) : result string :=
  match d !! k with
  | Some v => Ok v
  | None => Raise (KeyError k)
  end.

(** ** The frozen dataclass *)

Record SessionData : Type := {
  cookie : string;      (* the entire Cookie header string value *)
  user_agent : string    (* browser user agent *)
}.



(** ** The module *)

Section Session.

Variable host : Host.

(** *** What the module calls *)

Definition platform_system : M string := ret (h_system host).

Definition windows : bool := String.eqb (h_system host) "Windows".

(** the separator of the platform's [os.path] *)
Definition sep_char : ascii := if windows then "\"%char else "/"%char.
Definition sep : string := String sep_char EmptyString.

Definition os_path_join (a b : string) : string :=
  if windows then Path.nt_join a b else Path.posix_join a b.

(** [os.environ[k]] *)
Definition os_environ_getitem (k : string) : M string := λ σ,
  (getitem (environ σ) k, σ, []).

(** [os.environ[k] = v] *)
Definition os_environ_setitem (k v : string) : M unit := λ σ,
  (Ok tt, set_environ (<[k := v]> (environ σ)) σ, []).

(** [os.getenv(k)] *)
Definition os_getenv (k : string) : M (option string) := λ σ,
  (Ok (environ σ !! k), σ, []).

(** [posixpath.expanduser("~" + rest)] for [rest] starting with [/]:
    [HOME] when it is set, else the password database, else the path
    as it is *)
Definition os_path_expanduser_home (rest : string) : M string := λ σ,
  let userhome :=
    match environ σ !! "HOME" with
    | Some h => Some h
    | None => h_pw_dir host
    end in
  match userhome with
  | None => (Ok ("~" +:+ rest), σ, [])
  | Some h =>
      let p := Str.rstrip "/" h +:+ rest in
      (Ok (if Str.falsy p then "/" else p), σ, [])
  end.

Definition os_path_exists (p : string) : M bool := λ σ,
  (Ok (Fs.exists_ (fs σ) p), σ, [EvExists p]).

Definition os_path_isdir (p : string) : M bool := λ σ,
  (Ok (Fs.isdir (fs σ) p), σ, [EvIsdir p]).

Definition os_listdir (p : string) : M (list string) := λ σ,
  (Fs.listdir (fs σ) p, σ, [EvListdir p]).

Definition shutil_rmtree (p : string) : M unit := λ σ,
  match Fs.rmtree sep (fs σ) p with
  | (r, f) => (r, set_fs f σ, [EvRmtree p])
  end.

Definition print (line : string) : M unit := emit (EvPrint line).

Definition screeninfo_get_monitors : M (list Monitor) := lift (h_monitors host).

Definition webdriver_Firefox (wire : bool) (options : Options) : M unit := λ σ,
  match br_launch (h_browser host) wire options with
  | Some e => (Raise e, σ, [EvLaunch wire options])
  | None =>
      (Ok tt, set_fs (br_launch_fs (h_browser host) (fs σ)) σ,
       [EvLaunch wire options])
  end.

Definition driver_get (url : string) : M unit := λ σ,
  (outcome (br_get (h_browser host) url), σ, [EvGet url]).

Definition driver_implicitly_wait (seconds : nat) : M unit := λ σ,
  (outcome (br_implicitly_wait (h_browser host) seconds), σ,
   [EvImplicitlyWait seconds]).

Definition driver_execute_script (script : string) : M (option string) := λ σ,
  (br_execute_script (h_browser host) script, σ, [EvExecuteScript script]).

Definition driver_get_cookies : M (list cookie_dict) := λ σ,
  (br_get_cookies (h_browser host), σ, [EvGetCookies]).

Definition driver_quit : M unit := λ σ,
  (outcome (br_quit (h_browser host)), σ, [EvQuit]).

(** *** [__cleanup_resources] *)

(** the inner loop over the prefixes, left at the first match *)
Fixpoint remove_if_prefixed (full_path filename : string)
    (prefixes : list string) : M unit :=
  match prefixes with
  | [] => ret tt
  | dirPrefix :: rest =>
      if Str.startswith filename dirPrefix
      then shutil_rmtree full_path
      else remove_if_prefixed full_path filename rest
  end.

Definition dir_prefixes : list string := ["tmp"; "rust_mozpr"].

(** the loop over the names [os.listdir] returned *)
Fixpoint cleanup_loop (folder_path : string) (names : list string) : M unit :=
  match names with
  | [] => ret tt
  | filename :: rest =>
      let full_path := os_path_join folder_path filename in
      d ← os_path_isdir full_path;
      (if d : bool
       then remove_if_prefixed full_path filename dir_prefixes
       else ret tt);;
      cleanup_loop folder_path rest
  end.

Definition __cleanup_resources : M unit :=
  sys ← platform_system;
  folder ← (if String.eqb sys "Windows" then
              v ← os_environ_getitem "LOCALAPPDATA";
              ret (Some (os_path_join v "Temp"))
            else if String.eqb sys "Linux" then ret (Some "/tmp")
            else ret None);
  match folder with
  | None => ret tt
  | Some folder_path =>
      names ← os_listdir folder_path;
      cleanup_loop folder_path names
  end.

(** *** Profile discovery *)

Definition profile_suffix : string := ".default-release".

(** the scan shared by the two platforms: the first entry that ends in
    the suffix, joined to the directory *)
Fixpoint first_default_release (profile_path : string) (entries : list string)
    : option string :=
  match entries with
  | [] => None
  | entry :: rest =>
      if Str.endswith entry profile_suffix
      then Some (os_path_join profile_path entry)
      else first_default_release profile_path rest
  end.

Definition __linux_default_firefox_profile_path : M (option string) :=
  profile_path ← os_path_expanduser_home "/.mozilla/firefox";
  e ← os_path_exists profile_path;
  if negb e
  then raise (RuntimeError ("Unable to retrieve " +:+ profile_path +:+ " directory"))
  else
    entries ← os_listdir profile_path;
    ret (first_default_release profile_path entries).

Definition __win_default_firefox_profile_path : M (option string) :=
  appdata ← os_getenv "APPDATA";
  match appdata with
  | None => raise (TypeError "expected str, bytes or os.PathLike object, not NoneType")
  | Some a =>
      let profile_path := os_path_join a "Mozilla\Firefox\Profiles" in
      entries ← os_listdir profile_path;
      ret (first_default_release profile_path entries)
  end.

Definition __get_default_firefox_profile : M (option string) :=
  sys ← platform_system;
  if String.eqb sys "Windows" then __win_default_firefox_profile_path
  else if String.eqb sys "Linux" then __linux_default_firefox_profile_path
  else ret (Some "").

(** *** [__get_firefox_options] *)

Definition add_argument (a : string) (o : Options) : Options :=
  {| o_profile := o_profile o;
     o_arguments := o_arguments o ++ [a];
     o_preferences := o_preferences o |}.

Definition set_preference (k : string) (v : pref) (o : Options) : Options :=
  {| o_profile := o_profile o;
     o_arguments := o_arguments o;
     o_preferences := o_preferences o ++ [(k, v)] |}.

Definition __get_firefox_options (firefox_profile : option string)
    (headless private_mode : bool) : M Options :=
  profile ← (if Str.falsy_opt firefox_profile
             then __get_default_firefox_profile
             else ret firefox_profile);
  let options :=
    {| o_profile := profile; o_arguments := []; o_preferences := [] |} in
  options ← (if headless then
               monitors ← screeninfo_get_monitors;
               match monitors with
               | [] => raise (IndexError "list index out of range")
               | monitor :: _ =>
                   ret (set_preference "network.http.use-cache" (PrefBool false)
                       (set_preference "browser.cache.offline.enable" (PrefBool false)
                       (set_preference "browser.cache.memory.enable" (PrefBool false)
                       (set_preference "browser.cache.disk.enable" (PrefBool false)
                       (set_preference "media.volume_scale" (PrefStr "0.0")
                       (add_argument "--start-maximized"
                       (add_argument ("--window-size=" +:+ pretty (m_width monitor)
                                      +:+ "," +:+ pretty (m_height monitor))
                       (add_argument "--headless" options))))))))
               end
             else ret options);
  ret (if private_mode
       then set_preference "browser.privatebrowsing.autostart" (PrefBool true) options
       else options).

(** *** [__get_firefox_webdriver] *)

Definition DEFAULT_WINDWOS_FIREFOX_PATH : string := "C:\Program Files\Mozilla Firefox".

Definition __get_firefox_webdriver (options : Options) (use_selwire : bool) : M unit :=
  sys ← platform_system;
  (if String.eqb sys "Windows" then
     match h_which host "firefox" with
     | Some _ => ret tt
     | None =>
         path ← os_environ_getitem "PATH";
         if Str.find_fails path DEFAULT_WINDWOS_FIREFOX_PATH
         then os_environ_setitem "PATH" (path +:+ ";" +:+ DEFAULT_WINDWOS_FIREFOX_PATH)
         else ret tt
     end
   else ret tt);;
  webdriver_Firefox use_selwire options.

(** *** [get_session_data] *)

Definition __BASE_CHAT_URL : string := "https://claude.ai/chats".

(** [f"{cookie['name']}={cookie['value']}"] *)
Definition format_cookie (c : cookie_dict) : result string :=
  match getitem c "name" with
  | Raise e => Raise e
  | Ok n =>
      match getitem c "value" with
      | Raise e => Raise e
      | Ok v => Ok (n +:+ "=" +:+ v)
      end
  end.

Definition user_agent_script : string := "return navigator.userAgent".

(** the [try] block of [get_session_data] *)
Definition session_try : M (option SessionData) :=
  driver_get __BASE_CHAT_URL;;
  driver_implicitly_wait 3;;
  user_agent ← driver_execute_script user_agent_script;
  match user_agent with
  | None => raise (RuntimeError "Cannot retrieve UserAgent...")
  | Some ua =>
      if Str.falsy ua
      then raise (RuntimeError "Cannot retrieve UserAgent...")
      else
        cookies ← driver_get_cookies;
        parts ← lift (comprehension format_cookie cookies);
        let cookie_string := Str.join "; " parts in
        ret (Some {| cookie := cookie_string; user_agent := ua |})
  end.

(** its [finally] block *)
Definition session_finally : M unit :=
  driver_quit;;
  __cleanup_resources.

Definition get_session_data (profile : string) (quiet : bool)
    : M (option SessionData) :=
  profile ← (if Str.falsy profile
             then __get_default_firefox_profile
             else ret (Some profile));
  (if negb quiet
   then print (String "010" "Retrieving " +:+ __BASE_CHAT_URL
               +:+ " session cookie from " +:+ Str.format_opt profile)
   else ret tt);;
  __cleanup_resources;;
  opts ← __get_firefox_options profile true false;
  driver ← __get_firefox_webdriver opts false;
  try_finally session_try session_finally.

End Session.

(** * What the statements are about *)

(** a computation whose log only holds events of one kind *)
Definition only {A} (P : event → bool) (m : M A) : Prop :=
  ∀ σ, Forall (λ e, P e = true) (log (m σ)).

(** the Cookie header as the specification words it: the [name=value]
    strings of the cookies, in the order the driver reports them, joined
    with a semicolon and a space *)
Definition name_value (c : cookie_dict) : string :=
  default "" (c !! "name") +:+ "=" +:+ default "" (c !! "value").

Definition cookie_header (cookies : list cookie_dict) : string :=
  Str.join "; " (map name_value cookies).

(** How a retrieval can end: before the browser is asked for, with the
    constructor raising, or inside the [try]/[finally] that follows a
    successful launch. *)
Definition retrieval_cases (host : Host)
    (o : result (option SessionData) * State * list event)
    : Prop :=
  (∃ e, res o = Raise e ∧ Forall (λ ev, is_host_event ev = true) (log o)) ∨
  (∃ pre opts e,
      log o = pre ++ [EvLaunch false opts] ∧
      Forall (λ ev, is_host_event ev = true) pre ∧
      br_launch (h_browser host) false opts = Some e ∧
      res o = Raise e) ∨
  (∃ pre opts σ1,
      let t := try_finally (session_try host) (session_finally host) σ1 in
      log o = pre ++ EvLaunch false opts :: log t ∧
      Forall (λ ev, is_host_event ev = true) pre ∧
      br_launch (h_browser host) false opts = None ∧
      res o = res t ∧ final o = final t).

(** the directory discovery scans: [%APPDATA%\Mozilla\Firefox\Profiles]
    on Windows, [~/.mozilla/firefox] on Linux, none elsewhere *)
Definition profile_parent (host : Host) (σ : State) : option string :=
  if String.eqb (h_system host) "Windows" then
    match environ σ !! "APPDATA" with
    | Some a => Some (os_path_join host a "Mozilla\Firefox\Profiles")
    | None => None
    end
  else if String.eqb (h_system host) "Linux" then
    match res (os_path_expanduser_home host "/.mozilla/firefox" σ) with
    | Ok p => Some p
    | Raise _ => None
    end
  else None.

Definition is_default_release (entry : string) : bool :=
  Str.endswith entry ".default-release".

(** the exception discovery raises when the directory is not there *)
Definition missing_parent_error (host : Host) (parent : string) : exn :=
  if String.eqb (h_system host) "Windows" then FileNotFoundError parent
  else RuntimeError ("Unable to retrieve " +:+ parent +:+ " directory").

(** the directory cleanup scans: [%LOCALAPPDATA%\Temp] on Windows,
    [/tmp] on Linux, none elsewhere *)
Definition temp_root (host : Host) (σ : State) : option string :=
  if String.eqb (h_system host) "Windows" then
    match environ σ !! "LOCALAPPDATA" with
    | Some v => Some (os_path_join host v "Temp")
    | None => None
    end
  else if String.eqb (h_system host) "Linux" then Some "/tmp"
  else None.

(** a name as a directory listing holds it: free of the separator *)
Definition plain_name (host : Host) (n : string) : bool :=
  negb (Str.mem (sep_char host) n).

(** the entries the specification has cleanup remove: directories whose
    name starts with [tmp] or [rust_mozpr] *)
Definition is_stale (host : Host) (f : FS) (root n : string) : bool :=
  Fs.isdir f (os_path_join host root n) &&
  (Str.startswith n "tmp" || Str.startswith n "rust_mozpr").

(** among them, those whose removal fails *)
Definition is_blocked (host : Host) (f : FS) (root n : string) : bool :=
  is_stale host f root n &&
  match f !! os_path_join host root n with
  | Some (Dir _ true) => true
  | _ => false
  end.

(** the store once the entries named in [R] have been removed: the
    listing of the root has lost them, they are gone, and every other
    plain entry of the root is as it was *)
Definition swept (host : Host) (root : string) (f0 : FS) (L : list string)
    (lk0 : bool) (R : list string) (f : FS) : Prop :=
  f !! root = Some (Dir (filter (λ x, x ∉ R) L) lk0) ∧
  (∀ m, plain_name host m = true → m ∉ R → f !! Fs.child (sep host) root m = f0 !! Fs.child (sep host) root m) ∧
  (∀ m, m ∈ R → f !! Fs.child (sep host) root m = None).

(** one turn of the loop of [__cleanup_resources] *)
Definition sweep_entry (host : Host) (root n : string) : M unit :=
  bind (os_path_isdir (os_path_join host root n)) (λ d : bool,
    if d
    then remove_if_prefixed host (os_path_join host root n) n dir_prefixes
    else ret tt).

(** [f'] holds nothing that [f] did not: every node of [f'] is a node of
    [f], a directory listing at most the names it listed *)
Definition shrinks (f f' : FS) : Prop :=
  ∀ k, match f' !! k with
       | None => True
       | Some File => f !! k = Some File
       | Some (Dir l' lk) => ∃ l, f !! k = Some (Dir l lk) ∧ ∀ x, x ∈ l' → x ∈ l
       end.

(** ** More to state about the module *)

Definition is_print_event (e : event) : bool :=
  match e with
  | EvPrint _ => true
  | _ => false
  end.

(** what the [try] block asks of the driver, in the order it asks *)
Definition page_calls : list event :=
  [EvGet __BASE_CHAT_URL; EvImplicitlyWait 3;
   EvExecuteScript user_agent_script; EvGetCookies].

(** the line [get_session_data] prints for a resolved profile *)
Definition announcement (profile : option string) : string :=
  String "010" "Retrieving https://claude.ai/chats session cookie from "
  +:+ Str.format_opt profile.

(** the profile [get_session_data] starts from *)
Definition resolve_profile (host : Host) (profile : string) : M (option string) :=
  if Str.falsy profile then __get_default_firefox_profile host else ret (Some profile).

(** the options of a headless browser sized to a monitor *)
Definition headless_options (profile : option string) (m : Monitor) : Options := {|
  o_profile := profile;
  o_arguments :=
    ["--headless";
     "--window-size=" +:+ pretty (m_width m) +:+ "," +:+ pretty (m_height m);
     "--start-maximized"];
  o_preferences :=
    [("media.volume_scale", PrefStr "0.0");
     ("browser.cache.disk.enable", PrefBool false);
     ("browser.cache.memory.enable", PrefBool false);
     ("browser.cache.offline.enable", PrefBool false);
     ("network.http.use-cache", PrefBool false)]
|}.

(** a computation that leaves the environment variables in [K] alone *)
Definition env_stable {A} (K : string → Prop) (m : M A) : Prop :=
  ∀ σ k, K k → environ (final (m σ)) !! k = environ σ !! k.



(** the same host behind other monitors *)
Definition with_monitors (host : Host) (monitors : result (list Monitor)) : Host := {|
  h_system := h_system host;
  h_pw_dir := h_pw_dir host;
  h_which := h_which host;
  h_monitors := monitors;
  h_browser := h_browser host
|}.


(** every variable that is not [PATH], and [PATH] too off Windows *)
Definition kept_variable (host : Host) (k : string) : Prop :=
  k ≠ "PATH" ∨ h_system host ≠ "Windows".



(** ** Deciding equality of what the log holds *)

#[global] Instance exn_eq_dec : EqDecision exn.
Proof. solve_decision. Defined.

#[global] Instance pref_eq_dec : EqDecision pref.
Proof. solve_decision. Defined.

#[global] Instance Options_eq_dec : EqDecision Options.
Proof. solve_decision. Defined.

#[global] Instance event_eq_dec : EqDecision event.
Proof. solve_decision. Defined.

#[global] Instance result_eq_dec {A} `{EqDecision A} : EqDecision (result A).
Proof. solve_decision. Defined.

(** ** Hosts to run the module on *)

Module Demo.

(** a browser with a logged-in profile: two cookies and a user agent *)
Definition browser : Browser := {|
  br_launch := λ _ _, None;
  br_launch_fs := λ f, f;
  br_get := λ _, None;
  br_implicitly_wait := λ _, None;
  br_execute_script := λ _, Ok (Some "Mozilla/5.0 (X11; Linux x86_64)");
  br_get_cookies :=
    Ok [ {[ "name" := "sessionKey"; "value" := "sk-ant-sid01" ]};
         {[ "name" := "lastActiveOrg"; "value" := "7f3a" ]} ];
  br_quit := None
|}.


(** a browser that died under the driver: no user agent, and the
    session is gone when [quit] asks for it *)
Definition dead_browser : Browser := {|
  br_launch := λ _ _, None;
  br_launch_fs := λ f, f;
  br_get := λ _, None;
  br_implicitly_wait := λ _, None;
  br_execute_script := λ _, Ok None;
  br_get_cookies := Ok [];
  br_quit := Some (WebDriverException "invalid session id")
|}.

Definition monitor : Monitor := {| m_width := 1920; m_height := 1080 |}.

Definition on (system : string) (b : Browser) : Host := {|
  h_system := system;
  h_pw_dir := None;
  h_which := λ _, None;
  h_monitors := Ok [monitor];
  h_browser := b
|}.

Definition linux : Host := on "Linux" browser.
Definition linux_dead : Host := on "Linux" dead_browser.
Definition windows : Host := on "Windows" browser.
Definition darwin : Host := on "Darwin" browser.

(** a Linux home with a default profile and stale directories in [/tmp] *)
Definition tmp_entries : list string :=
  ["tmpa1b2c3"; "systemd-private"; "rust_mozprofile7Kq"; "tmpfile.txt"].

Definition linux_fs : FS :=
  {[ "/tmp" := Dir tmp_entries false;
     "/tmp/tmpa1b2c3" := Dir ["webdriver-py-profilecopy"] false;
     "/tmp/tmpa1b2c3/webdriver-py-profilecopy" := Dir [] false;
     "/tmp/systemd-private" := Dir [] false;
     "/tmp/rust_mozprofile7Kq" := Dir [] false;
     "/tmp/tmpfile.txt" := File;
     "/home/u/.mozilla/firefox" :=
       Dir ["profiles.ini"; "k2x9.default"; "w81z.default-release"] false;
     "/home/u/.mozilla/firefox/profiles.ini" := File ]}.

Definition start : State :=
  {| environ := {[ "HOME" := "/home/u" ]}; fs := linux_fs |}.

Definition session : SessionData := {|
  cookie := "sessionKey=sk-ant-sid01; lastActiveOrg=7f3a";
  user_agent := "Mozilla/5.0 (X11; Linux x86_64)"
|}.

(** the options [get_session_data] builds for a given profile *)
Definition options (profile : option string) : Options := {|
  o_profile := profile;
  o_arguments := ["--headless"; "--window-size=1920,1080"; "--start-maximized"];
  o_preferences :=
    [("media.volume_scale", PrefStr "0.0");
     ("browser.cache.disk.enable", PrefBool false);
     ("browser.cache.memory.enable", PrefBool false);
     ("browser.cache.offline.enable", PrefBool false);
     ("network.http.use-cache", PrefBool false)]
|}.

(** a home without [~/.mozilla/firefox] *)
Definition no_firefox : State :=
  {| environ := {[ "HOME" := "/home/u" ]};
     fs := {[ "/tmp" := Dir [] false ]} |}.

(** a home whose Firefox directory holds no [.default-release] entry *)
Definition no_release : State :=
  {| environ := {[ "HOME" := "/home/u" ]};
     fs := {[ "/tmp" := Dir [] false;
              "/home/u/.mozilla/firefox" := Dir ["profiles.ini"; "k2x9.default"] false ]} |}.

(** a Windows profile directory *)
Definition windows_parent : string :=
  "C:\Users\u\AppData\Roaming\Mozilla\Firefox\Profiles".

Definition windows_start : State :=
  {| environ := {[ "APPDATA" := "C:\Users\u\AppData\Roaming";
                   "LOCALAPPDATA" := "C:\Users\u\AppData\Local" ]};
     fs := {[ "C:\Users\u\AppData\Local\Temp" := Dir [] false;
              windows_parent := Dir ["a1.default"; "b2.default-release"; "c3.default-release"] false ]} |}.




(** another, where the first stale directory is the one that is held *)
Definition stuck : State :=
  {| environ := ∅;
     fs := {[ "/tmp" := Dir ["tmp_in_use"; "tmp_free"] false;
              "/tmp/tmp_in_use" := Dir [] true;
              "/tmp/tmp_free" := Dir [] false ]} |}.

End Demo.

(** ** More hosts *)

Module Hosts.

(** a host without a display *)
Definition headless_server : Host := with_monitors Demo.linux (Ok []).



(** a machine whose [/tmp] is gone *)
Definition no_tmp : State :=
  {| environ := {[ "HOME" := "/home/u" ]}; fs := ∅ |}.

(** a Windows session that lost its environment *)
Definition bare : State := {| environ := ∅; fs := ∅ |}.

End Hosts.


(** * Reasoning about runs *)

Section Runs.

Context {A B : Type}.

Lemma bind_run (m : M A) (k : A → M B) σ :
  bind m k σ =
    match res (m σ) with
    | Ok a =>
        let o := k a (final (m σ)) in
        (res o, final o, log (m σ) ++ log o)
    | Raise e => (Raise e, final (m σ), log (m σ))
    end.
Proof.
  unfold bind, res, final, log.
  destruct (m σ) as [[[a|e] σ1] t1]; simpl; [|reflexivity].
  destruct (k a σ1) as [[r σ2] t2]; reflexivity.
Qed.

Lemma res_bind_ok (m : M A) (k : A → M B) σ b :
  res (bind m k σ) = Ok b →
  ∃ a, res (m σ) = Ok a ∧ res (k a (final (m σ))) = Ok b.
Proof.
  rewrite bind_run. destruct (res (m σ)) as [a|e]; simpl; [eauto|discriminate].
Qed.

Lemma log_bind (m : M A) (k : A → M B) σ :
  log (bind m k σ) =
    log (m σ) ++
    match res (m σ) with
    | Ok a => log (k a (final (m σ)))
    | Raise _ => []
    end.
Proof.
  rewrite bind_run. destruct (res (m σ)); simpl; [reflexivity|].
  symmetry; apply app_nil_r.
Qed.

Lemma res_bind (m : M A) (k : A → M B) σ :
  res (bind m k σ) =
    match res (m σ) with
    | Ok a => res (k a (final (m σ)))
    | Raise e => Raise e
    end.
Proof. rewrite bind_run. destruct (res (m σ)); reflexivity. Qed.

Lemma final_bind (m : M A) (k : A → M B) σ :
  final (bind m k σ) =
    match res (m σ) with
    | Ok a => final (k a (final (m σ)))
    | Raise e => final (m σ)
    end.
Proof. rewrite bind_run. destruct (res (m σ)); reflexivity. Qed.

Lemma bind_ret_l (a : A) (k : A → M B) σ : bind (ret a) k σ = k a σ.
Proof. unfold bind, ret. destruct (k a σ) as [[r σ2] t2]; reflexivity. Qed.

Lemma bind_raise_l e (k : A → M B) σ : bind (raise e) k σ = raise e σ.
Proof. reflexivity. Qed.

Lemma try_finally_run (body : M A) (fin : M unit) σ :
  try_finally body fin σ =
    let o := body σ in
    let f := fin (final o) in
    (match res f with Ok _ => res o | Raise e => Raise e end,
     final f, log o ++ log f).
Proof.
  unfold try_finally, res, final, log.
  destruct (body σ) as [[r σ1] t1]; simpl.
  destruct (fin σ1) as [[[[]|e] σ2] t2]; reflexivity.
Qed.

End Runs.

Lemma only_ret {A} P (a : A) : only P (ret a).
Proof. intros σ. constructor. Qed.

Lemma only_raise {A} P e : only P (@raise A e).
Proof. intros σ. constructor. Qed.

Lemma only_lift {A} P (r : result A) : only P (lift r).
Proof. intros σ. constructor. Qed.

Lemma only_bind {A B} P (m : M A) (k : A → M B) :
  only P m → (∀ a, only P (k a)) → only P (bind m k).
Proof.
  intros Hm Hk σ. rewrite log_bind. apply Forall_app. split; [apply Hm|].
  destruct (res (m σ)); [apply Hk|constructor].
Qed.

Lemma only_if {A} P (b : bool) (m1 m2 : M A) :
  only P m1 → only P m2 → only P (if b then m1 else m2).
Proof. destruct b; auto. Qed.

Create HintDb only discriminated.
#[local] Hint Resolve only_ret only_raise only_lift only_bind only_if : only.

Section SessionFacts.

Variable host : Host.

Lemma only_fs_getitem k : only is_fs_event (os_environ_getitem k).
Proof. intros σ. constructor. Qed.

Lemma only_fs_getenv k : only is_fs_event (os_getenv k).
Proof. intros σ. constructor. Qed.

Lemma only_fs_expanduser p : only is_fs_event (os_path_expanduser_home host p).
Proof.
  intros σ. unfold os_path_expanduser_home.
  destruct (environ σ !! "HOME"); [constructor|].
  destruct (h_pw_dir host); constructor.
Qed.

Lemma only_fs_exists p : only is_fs_event (os_path_exists p).
Proof. intros σ. repeat constructor. Qed.

Lemma only_fs_isdir p : only is_fs_event (os_path_isdir p).
Proof. intros σ. repeat constructor. Qed.

Lemma only_fs_listdir p : only is_fs_event (os_listdir p).
Proof. intros σ. repeat constructor. Qed.

Lemma only_fs_rmtree p : only is_fs_event (shutil_rmtree host p).
Proof.
  intros σ. unfold shutil_rmtree.
  destruct (Fs.rmtree _ _ _). repeat constructor.
Qed.

Hint Resolve only_fs_getitem only_fs_getenv only_fs_expanduser only_fs_exists
  only_fs_isdir only_fs_listdir only_fs_rmtree : only.

Lemma only_fs_remove_if_prefixed full_path filename prefixes :
  only is_fs_event (remove_if_prefixed host full_path filename prefixes).
Proof.
  induction prefixes as [|p ps IH]; simpl; auto with only.
Qed.

Lemma only_fs_cleanup_loop folder names :
  only is_fs_event (cleanup_loop host folder names).
Proof.
  induction names as [|n ns IH]; simpl; [auto with only|].
  apply only_bind; [auto with only|]. intros d.
  apply only_bind; [|auto].
  destruct d; auto using only_fs_remove_if_prefixed with only.
Qed.

Lemma only_fs_cleanup_resources : only is_fs_event (__cleanup_resources host).
Proof.
  unfold __cleanup_resources, platform_system.
  apply only_bind; [auto with only|]. intros sys.
  apply only_bind.
  - repeat (apply only_if || apply only_bind || intro); auto with only.
  - intros [folder|]; [|auto with only].
    apply only_bind; [auto with only|]. intros names.
    apply only_fs_cleanup_loop.
Qed.

Lemma only_fs_get_default_firefox_profile :
  only is_fs_event (__get_default_firefox_profile host).
Proof.
  unfold __get_default_firefox_profile, platform_system,
    __win_default_firefox_profile_path, __linux_default_firefox_profile_path.
  apply only_bind; [auto with only|]. intros sys.
  apply only_if; [|apply only_if; [|auto with only]].
  - apply only_bind; [auto with only|]. intros [a|]; auto 6 with only.
  - apply only_bind; [auto with only|]. intros p.
    apply only_bind; [auto with only|]. intros e.
    apply only_if; auto 6 with only.
Qed.

Lemma only_fs_get_firefox_options p hd pm :
  only is_fs_event (__get_firefox_options host p hd pm).
Proof.
  unfold __get_firefox_options, screeninfo_get_monitors.
  apply only_bind.
  { apply only_if; auto using only_fs_get_default_firefox_profile with only. }
  intros profile. apply only_bind; [|auto with only].
  apply only_if; [|auto with only].
  apply only_bind; [auto with only|]. intros [|m ms]; auto with only.
Qed.

End SessionFacts.

Section Retrieval.

Variable host : Host.

Hint Resolve only_fs_cleanup_resources only_fs_get_default_firefox_profile
  only_fs_get_firefox_options : only.

Lemma webdriver_Firefox_run wire opts σ :
  log (webdriver_Firefox host wire opts σ) = [EvLaunch wire opts] ∧
  res (webdriver_Firefox host wire opts σ)
    = outcome (br_launch (h_browser host) wire opts).
Proof. unfold webdriver_Firefox. destruct (br_launch _ _ _); simpl; auto. Qed.

Lemma get_firefox_webdriver_run opts wire σ :
  let o := __get_firefox_webdriver host opts wire σ in
  (log o = [] ∧ ∃ e, res o = Raise e) ∨
  (log o = [EvLaunch wire opts] ∧
   res o = outcome (br_launch (h_browser host) wire opts)).
Proof.
  assert (Hstep : ∀ step : M unit, (∀ σ', log (step σ') = []) →
    let o := bind step (λ _, webdriver_Firefox host wire opts) σ in
    (log o = [] ∧ ∃ e, res o = Raise e) ∨
    (log o = [EvLaunch wire opts] ∧
     res o = outcome (br_launch (h_browser host) wire opts))).
  { intros step Hsilent. simpl. rewrite log_bind, res_bind, Hsilent.
    destruct (res (step σ)) as [[]|e]; [right|left; eauto].
    apply webdriver_Firefox_run. }
  unfold __get_firefox_webdriver, platform_system. simpl.
  rewrite bind_ret_l. apply Hstep. intros σ'.
  destruct (String.eqb _ _); [|reflexivity].
  destruct (h_which host "firefox"); [reflexivity|].
  rewrite log_bind. unfold os_environ_getitem. simpl.
  destruct (getitem (environ σ') "PATH") as [path|e]; [|reflexivity].
  unfold res; simpl. destruct (Str.find_fails _ _); reflexivity.
Qed.

Lemma session_try_final σ : final (session_try host σ) = σ.
Proof.
  unfold session_try, bind, driver_get, driver_implicitly_wait,
    driver_execute_script, driver_get_cookies, lift, raise, ret, final.
  simpl.
  destruct (br_get _ _); simpl; [reflexivity|].
  destruct (br_implicitly_wait _ _); simpl; [reflexivity|].
  destruct (br_execute_script _ _) as [[ua|]|]; simpl; try reflexivity.
  destruct (Str.falsy ua); simpl; [reflexivity|].
  destruct (br_get_cookies _); simpl; [|reflexivity].
  destruct (comprehension _ _); reflexivity.
Qed.

Lemma session_try_only_page : only is_page_event (session_try host).
Proof.
  intros σ.
  unfold session_try, bind, driver_get, driver_implicitly_wait,
    driver_execute_script, driver_get_cookies, lift, raise, ret, log.
  simpl.
  destruct (br_get _ _); simpl; [repeat constructor|].
  destruct (br_implicitly_wait _ _); simpl; [repeat constructor|].
  destruct (br_execute_script _ _) as [[ua|]|]; simpl; try (repeat constructor).
  destruct (Str.falsy ua); simpl; [repeat constructor|].
  destruct (br_get_cookies _); simpl; [|repeat constructor].
  destruct (comprehension _ _); repeat constructor.
Qed.

Lemma session_try_ok σ v :
  res (session_try host σ) = Ok v →
  ∃ ua cookies parts,
    br_execute_script (h_browser host) user_agent_script = Ok (Some ua) ∧
    Str.falsy ua = false ∧
    br_get_cookies (h_browser host) = Ok cookies ∧
    comprehension format_cookie cookies = Ok parts ∧
    v = Some {| cookie := Str.join "; " parts; user_agent := ua |}.
Proof.
  unfold session_try, bind, driver_get, driver_implicitly_wait,
    driver_execute_script, driver_get_cookies, lift, raise, ret, res.
  simpl.
  destruct (br_get _ _); simpl; [discriminate|].
  destruct (br_implicitly_wait _ _); simpl; [discriminate|].
  destruct (br_execute_script _ _) as [[ua|]|]; simpl; try discriminate.
  destruct (Str.falsy ua) eqn:Hua; simpl; [discriminate|].
  destruct (br_get_cookies _) as [cookies|]; simpl; [|discriminate].
  destruct (comprehension _ _) as [parts|] eqn:Hparts; simpl; [|discriminate].
  intros [= <-]. eauto 10.
Qed.


Lemma session_finally_res σ :
  res (session_finally host σ) =
    match br_quit (h_browser host) with
    | Some e => Raise e
    | None => res (__cleanup_resources host σ)
    end.
Proof.
  unfold session_finally. rewrite res_bind. unfold driver_quit, res at 1 3. simpl.
  destruct (br_quit _); reflexivity.
Qed.

Lemma session_finally_log σ :
  ∃ after, log (session_finally host σ) = EvQuit :: after ∧
           Forall (λ e, is_fs_event e = true) after.
Proof.
  unfold session_finally. rewrite log_bind. unfold driver_quit, res, log at 1. simpl.
  destruct (br_quit _); simpl; eexists; split; try reflexivity.
  - constructor.
  - apply only_fs_cleanup_resources.
Qed.

Lemma retrieval_cases_step {X} (m : M X) (k : X → M (option SessionData)) σ :
  only is_host_event m →
  (∀ x σ', retrieval_cases host (k x σ')) →
  retrieval_cases host (bind m k σ).
Proof.
  intros Hm Hk. unfold retrieval_cases.
  rewrite log_bind, res_bind, final_bind.
  specialize (Hm σ). destruct (res (m σ)) as [x|e].
  - destruct (Hk x (final (m σ))) as [(e & He & Hl)|[(pre & opts & e & Hl & Hp & Hb & He)
      |(pre & opts & σ1 & Hl & Hp & Hb & He & Hf)]].
    + left. exists e. split; [done|]. by apply Forall_app.
    + right; left. exists (log (m σ) ++ pre), opts, e.
      rewrite Hl, app_assoc. split_and!; try done. by apply Forall_app.
    + right; right. exists (log (m σ) ++ pre), opts, σ1. simpl.
      rewrite Hl, <- app_assoc. split_and!; try done. by apply Forall_app.
  - left. exists e. rewrite app_nil_r. done.
Qed.

Lemma only_host_of_fs {X} (m : M X) : only is_fs_event m → only is_host_event m.
Proof.
  intros H σ. eapply Forall_impl; [apply H|]. by intros [] ?.
Qed.

Lemma get_session_data_cases profile quiet σ :
  retrieval_cases host (get_session_data host profile quiet σ).
Proof.
  unfold get_session_data.
  apply retrieval_cases_step.
  { apply only_host_of_fs. auto with only. }
  intros prof σ1. apply retrieval_cases_step.
  { destruct quiet; simpl; [apply only_ret|]. intros ?. by repeat constructor. }
  intros _ σ2. apply retrieval_cases_step.
  { apply only_host_of_fs. auto with only. }
  intros _ σ3. apply retrieval_cases_step.
  { apply only_host_of_fs. auto with only. }
  intros opts σ4. unfold retrieval_cases.
  rewrite log_bind, res_bind, final_bind.
  destruct (get_firefox_webdriver_run opts false σ4) as [[Hl [e He]]|[Hl He]];
    rewrite Hl, He.
  - left. exists e. split; [done|]. constructor.
  - destruct (br_launch (h_browser host) false opts) as [e|] eqn:Hb.
    + right; left. exists [], opts, e. by repeat constructor.
    + right; right. exists [], opts, (final (__get_firefox_webdriver host opts false σ4)).
      by repeat constructor.
Qed.

End Retrieval.

(** ** What the retrieval returns *)

Lemma format_cookie_ok c s :
  format_cookie c = Ok s →
  is_Some (c !! "name") ∧ is_Some (c !! "value") ∧ s = name_value c.
Proof.
  unfold format_cookie, getitem, name_value.
  destruct (c !! "name") as [n|]; [|discriminate].
  destruct (c !! "value") as [v|]; [|discriminate].
  intros [= <-]. eauto.
Qed.

Lemma comprehension_format_cookie cookies parts :
  comprehension format_cookie cookies = Ok parts →
  Forall (λ c, is_Some (c !! "name") ∧ is_Some (c !! "value")) cookies ∧
  parts = map name_value cookies.
Proof.
  revert parts. induction cookies as [|c cs IH]; simpl; intros parts.
  - intros [= <-]. split; constructor.
  - destruct (format_cookie c) as [s|] eqn:Hc; [|discriminate].
    destruct (comprehension format_cookie cs) as [ps|]; [|discriminate].
    intros [= <-]. apply format_cookie_ok in Hc as (Hn & Hv & ->).
    destruct (IH ps eq_refl) as [Hall ->]. split; [by constructor|done].
Qed.

Lemma get_session_data_ok host profile quiet σ v :
  res (get_session_data host profile quiet σ) = Ok v →
  ∃ σ1, res (session_try host σ1) = Ok v.
Proof.
  intros Hok.
  destruct (get_session_data_cases host profile quiet σ)
    as [(e & He & _)|[(pre & opts & e & _ & _ & _ & He)
                     |(pre & opts & σ1 & _ & _ & _ & He & _)]];
    try congruence.
  exists σ1. rewrite He, try_finally_run in Hok. unfold res at 1 in Hok.
  simpl in Hok. by destruct (res (session_finally host _)).
Qed.

(** C1. Whenever [get_session_data] succeeds, the [cookie] field of the
    record it returns is the string obtained by joining with ["; "] the
    strings [name=value] of the cookies the driver returned, in the
    driver's order. *)
Theorem cookie_is_joined_name_value_pairs host profile quiet σ sd :
  res (get_session_data host profile quiet σ) = Ok (Some sd) →
  ∃ cookies,
    br_get_cookies (h_browser host) = Ok cookies ∧
    cookie sd = cookie_header cookies.
Proof.
  intros Hok. apply get_session_data_ok in Hok as [σ1 Hok].
  apply session_try_ok in Hok as (ua & cookies & parts & _ & _ & Hc & Hp & Hv).
  exists cookies. split; [done|].
  apply comprehension_format_cookie in Hp as [_ ->].
  by injection Hv as ->.
Qed.


(** C2. Once the driver has been constructed, every way out of
    [get_session_data] passes through [driver.quit()]: the log of the
    call holds the quit after the launch, and only the filesystem sweep
    of the trailing cleanup comes after it, whether the call returns or
    raises. *)
Theorem browser_is_quit_on_every_exit host profile quiet σ wire opts :
  EvLaunch wire opts ∈ log (get_session_data host profile quiet σ) →
  br_launch (h_browser host) wire opts = None →
  ∃ before after,
    log (get_session_data host profile quiet σ) = before ++ EvQuit :: after ∧
    EvLaunch wire opts ∈ before ∧
    (EvQuit ∉ before) ∧
    Forall (λ e, is_fs_event e = true) after.
Proof.
  intros Hin Hlaunch.
  destruct (get_session_data_cases host profile quiet σ)
    as [(e & _ & Hall)|[(pre & opts' & e & Hl & Hpre & Hb & _)
                       |(pre & opts' & σ1 & Hl & Hpre & _ & _ & _)]].
  - rewrite Forall_forall in Hall. by apply Hall in Hin.
  - rewrite Hl in Hin. apply elem_of_app in Hin as [Hin|Hin].
    + rewrite Forall_forall in Hpre. by apply Hpre in Hin.
    + apply list_elem_of_singleton in Hin. congruence.
  - simpl in Hl. rewrite try_finally_run in Hl. unfold log at 2 in Hl. simpl in Hl.
    destruct (session_finally_log host (final (session_try host σ1)))
      as (after & Hfin & Hafter).
    rewrite Hfin in Hl.
    pose proof (session_try_only_page host σ1) as Hpage.
    rewrite Forall_forall in Hpre, Hpage, Hafter.
    exists (pre ++ EvLaunch false opts' :: log (session_try host σ1)), after.
    split; [by rewrite Hl, <- app_assoc|].
    rewrite Hl in Hin. split_and!; [|intros Hq|by apply Forall_forall].
    + apply elem_of_app in Hin as [Hin|Hin]; [set_solver|].
      apply elem_of_cons in Hin as [Hin|Hin]; [set_solver|].
      apply elem_of_app in Hin as [Hin|Hin]; [set_solver|].
      apply elem_of_cons in Hin as [Hin|Hin]; [discriminate|].
      by apply Hafter in Hin.
    + apply elem_of_app in Hq as [Hq|Hq]; [by apply Hpre in Hq|].
      apply elem_of_cons in Hq as [Hq|Hq]; [discriminate|].
      by apply Hpage in Hq.
Qed.


(** C7. On a platform that is neither Windows nor Linux, profile
    discovery returns the empty "no default" value and cleanup returns at
    once: neither raises, neither touches the filesystem (empty log,
    state as before). *)
Theorem unsupported_platform_is_a_no_op host σ :
  h_system host ≠ "Windows" →
  h_system host ≠ "Linux" →
  __get_default_firefox_profile host σ = (Ok (Some ""), σ, []) ∧
  __cleanup_resources host σ = (Ok tt, σ, []).
Proof.
  intros Hw Hl. apply String.eqb_neq in Hw, Hl.
  unfold __get_default_firefox_profile, __cleanup_resources, platform_system.
  rewrite !bind_ret_l, Hw, Hl, bind_ret_l. done.
Qed.

(** ** Profile discovery *)

Section Discovery.

Variable host : Host.

Lemma first_default_release_none parent entries :
  Forall (λ e, is_default_release e = false) entries →
  first_default_release host parent entries = None.
Proof.
  induction 1 as [|e es He _ IH]; simpl; [done|].
  unfold is_default_release, profile_suffix in *. by rewrite He.
Qed.

Lemma first_default_release_first parent pre entry post :
  Forall (λ e, is_default_release e = false) pre →
  is_default_release entry = true →
  first_default_release host parent (pre ++ entry :: post)
    = Some (os_path_join host parent entry).
Proof.
  intros Hpre He. induction Hpre as [|e es Hn _ IH]; simpl.
  - unfold is_default_release, profile_suffix in *. by rewrite He.
  - unfold is_default_release, profile_suffix in *. by rewrite Hn.
Qed.

Lemma first_match_split (entries : list string) :
  Exists (λ e, is_default_release e = true) entries →
  ∃ pre entry post,
    entries = pre ++ entry :: post ∧
    Forall (λ e, is_default_release e = false) pre ∧
    is_default_release entry = true.
Proof.
  induction entries as [|e es IH]; intros Hex; [inversion Hex|].
  destruct (is_default_release e) eqn:He.
  - exists [], e, es. by repeat constructor.
  - inversion Hex as [? ? Hhd|? ? Htl]; subst; [congruence|].
    destruct (IH Htl) as (pre & entry & post & -> & Hpre & Hentry).
    exists (e :: pre), entry, post. by repeat constructor.
Qed.

Lemma expanduser_run rest σ :
  ∃ p, os_path_expanduser_home host rest σ = (Ok p, σ, []).
Proof.
  unfold os_path_expanduser_home.
  destruct (environ σ !! "HOME"); [eauto|]. destruct (h_pw_dir host); eauto.
Qed.

(** discovery over a directory that is there: the scan of its listing *)
Lemma discovery_listed σ parent entries lk :
  profile_parent host σ = Some parent →
  fs σ !! parent = Some (Dir entries lk) →
  ∃ t, __get_default_firefox_profile host σ
       = (Ok (first_default_release host parent entries), σ, t) ∧
       Forall (λ e, is_fs_event e = true) t.
Proof.
  unfold profile_parent, __get_default_firefox_profile, platform_system.
  rewrite bind_ret_l. intros Hp Hfs.
  destruct (String.eqb (h_system host) "Windows").
  - unfold __win_default_firefox_profile_path, os_getenv, bind at 1.
    destruct (environ σ !! "APPDATA") as [a|]; [|done].
    injection Hp as <-. unfold os_listdir, bind, Fs.listdir, ret.
    rewrite Hfs. simpl. eexists. split; [done|]. by repeat constructor.
  - destruct (String.eqb (h_system host) "Linux"); [|done].
    unfold __linux_default_firefox_profile_path.
    destruct (expanduser_run "/.mozilla/firefox" σ) as [p Hrun].
    rewrite Hrun in Hp. injection Hp as ->.
    unfold bind at 1. rewrite Hrun.
    unfold bind, os_path_exists, os_listdir, Fs.exists_, Fs.listdir, ret.
    rewrite Hfs. simpl. rewrite Hfs. eexists. split; [done|]. by repeat constructor.
Qed.

(** discovery over a directory that is there and holds no match *)
Lemma discovery_unmatched σ parent entries lk :
  profile_parent host σ = Some parent →
  fs σ !! parent = Some (Dir entries lk) →
  Forall (λ e, is_default_release e = false) entries →
  res (__get_default_firefox_profile host σ) = Ok None.
Proof.
  intros Hp Hfs Hnone.
  destruct (discovery_listed σ parent _ lk Hp Hfs) as (t & -> & _).
  unfold res; simpl. by rewrite first_default_release_none.
Qed.

(** discovery over a directory that is not there *)
Lemma discovery_missing σ parent :
  profile_parent host σ = Some parent →
  fs σ !! parent = None →
  ∃ t, __get_default_firefox_profile host σ
       = (Raise (missing_parent_error host parent), σ, t) ∧
       Forall (λ e, is_fs_event e = true) t.
Proof.
  unfold profile_parent, __get_default_firefox_profile, platform_system,
    missing_parent_error.
  rewrite bind_ret_l. intros Hp Hfs.
  destruct (String.eqb (h_system host) "Windows").
  - unfold __win_default_firefox_profile_path, os_getenv, bind at 1.
    destruct (environ σ !! "APPDATA") as [a|]; [|done].
    injection Hp as <-. unfold os_listdir, bind, Fs.listdir, ret.
    rewrite Hfs. simpl. eexists. split; [done|]. by repeat constructor.
  - destruct (String.eqb (h_system host) "Linux"); [|done].
    unfold __linux_default_firefox_profile_path.
    destruct (expanduser_run "/.mozilla/firefox" σ) as [p Hrun].
    rewrite Hrun in Hp. injection Hp as ->.
    unfold bind at 1. rewrite Hrun.
    unfold bind, os_path_exists, os_listdir, Fs.exists_, Fs.listdir, ret, raise.
    rewrite Hfs. simpl. eexists. split; [done|]. by repeat constructor.
Qed.

End Discovery.

(** C4. When the listing of the profile parent directory holds an entry
    that ends in [.default-release], discovery returns the parent path
    joined with the first such entry in listing order (so with the only
    one, when exactly one matches), and changes nothing. *)
Theorem discovery_returns_first_match host σ parent entries lk :
  profile_parent host σ = Some parent →
  fs σ !! parent = Some (Dir entries lk) →
  Exists (λ e, is_default_release e = true) entries →
  ∃ pre entry post,
    entries = pre ++ entry :: post ∧
    Forall (λ e, is_default_release e = false) pre ∧
    is_default_release entry = true ∧
    res (__get_default_firefox_profile host σ)
      = Ok (Some (os_path_join host parent entry)) ∧
    final (__get_default_firefox_profile host σ) = σ.
Proof.
  intros Hp Hfs Hex.
  destruct (first_match_split entries Hex) as (pre & entry & post & -> & Hpre & He).
  destruct (discovery_listed host σ parent _ lk Hp Hfs) as (t & -> & _).
  exists pre, entry, post. split_and!; try done.
  unfold res; simpl. by rewrite first_default_release_first.
Qed.

(** C5 (as the code has it). When the parent directory is there and no
    entry of its listing ends in [.default-release], discovery returns
    [None] without raising.  When the parent directory is not there,
    discovery raises: the [RuntimeError] of the existence check on Linux,
    the [FileNotFoundError] of the listing on Windows. *)
Theorem discovery_without_match_or_parent host σ parent :
  profile_parent host σ = Some parent →
  (∀ entries lk,
      fs σ !! parent = Some (Dir entries lk) →
      Forall (λ e, is_default_release e = false) entries →
      res (__get_default_firefox_profile host σ) = Ok None) ∧
  (fs σ !! parent = None →
      res (__get_default_firefox_profile host σ)
        = Raise (missing_parent_error host parent)).
Proof.
  intros Hp. split.
  - intros entries lk Hfs Hnone. by eapply discovery_unmatched.
  - intros Hfs.
    by destruct (discovery_missing host σ parent Hp Hfs) as (t & -> & _).
Qed.

(** ** Strings and paths *)

Module StrFacts.

Lemma app_nil_l (b : string) : "" +:+ b = b.
Proof. reflexivity. Qed.

Lemma app_cons x (a b : string) : String x a +:+ b = String x (a +:+ b).
Proof. reflexivity. Qed.

Lemma app_nil_r (a : string) : a +:+ "" = a.
Proof. induction a as [|c a IH]; [done|]. by rewrite app_cons, IH. Qed.

Lemma app_assoc (a b c : string) : (a +:+ b) +:+ c = a +:+ (b +:+ c).
Proof. induction a as [|x a IH]; [done|]. by rewrite !app_cons, IH. Qed.

Lemma prefix_app_cancel (a b d : string) :
  String.prefix (a +:+ b) (a +:+ d) = String.prefix b d.
Proof.
  induction a as [|x a IH]; [done|]. rewrite !app_cons. simpl.
  destruct (ascii_dec x x); [apply IH|done].
Qed.

Lemma prefix_nil_r (a : string) : a ≠ "" → String.prefix a "" = false.
Proof. by destruct a. Qed.

Lemma mem_app c (a b : string) : Str.mem c (a +:+ b) = Str.mem c a || Str.mem c b.
Proof.
  induction a as [|x a IH]; [done|]. rewrite app_cons. simpl.
  by rewrite IH, orb_assoc.
Qed.

Lemma mem_sep_app c (a b : string) : Str.mem c (a +:+ String c b) = true.
Proof.
  rewrite mem_app. simpl. rewrite Ascii.eqb_refl. simpl. apply orb_true_r.
Qed.

(** a name that has [n] followed by the separator as a prefix holds
    the separator *)
Lemma prefix_sep_mem c (n m : string) :
  String.prefix (n +:+ String c "") m = true → Str.mem c m = true.
Proof.
  revert m. induction n as [|x n IH]; intros [|y m];
    rewrite ?app_nil_l, ?app_cons; simpl; try done.
  - destruct (ascii_dec c y) as [->|]; [|done].
    by rewrite Ascii.eqb_refl.
  - destruct (ascii_dec x y) as [->|]; [|done].
    intros H. rewrite (IH _ H). apply orb_true_r.
Qed.

Lemma startswith_sep_mem c (n : string) :
  Str.mem c n = false → Str.startswith n (String c "") = false.
Proof.
  destruct n as [|y n]; simpl; [done|].
  destruct (ascii_dec c y) as [->|]; [|done].
  by rewrite Ascii.eqb_refl.
Qed.

Lemma last_app (a b : string) : b ≠ "" → Str.last (a +:+ b) = Str.last b.
Proof.
  intros Hb. induction a as [|x a IH]; [done|]. rewrite app_cons. simpl.
  destruct (a +:+ b) eqn:E; [|done].
  destruct a; [done|discriminate].
Qed.

Lemma falsy_app (a b : string) : b ≠ "" → Str.falsy (a +:+ b) = false.
Proof. intros Hb. destruct a; [|done]. by destruct b. Qed.

End StrFacts.

(** ** The sweep of the temp root *)

Module PathFacts.

Lemma length_app (a b : string) :
  String.length (a +:+ b) = String.length a + String.length b.
Proof.
  induction a as [|x a IH]; [done|]. rewrite StrFacts.app_cons. simpl.
  by rewrite IH.
Qed.

Lemma bare_drive_length a : Path.is_bare_drive a = true → String.length a = 2.
Proof.
  destruct a as [|x [|y [|z a]]]; simpl; try done.
  all: by repeat case_match.
Qed.

Lemma nt_join_dir (a t n : string) :
  Str.last t = Some "p"%char → 3 ≤ String.length t →
  Path.nt_join (a +:+ t) n = (a +:+ t) +:+ "\" +:+ n.
Proof.
  intros Hlast Hlen. unfold Path.nt_join.
  assert (Ht : t ≠ "") by (by destruct t).
  rewrite StrFacts.falsy_app by done.
  unfold Path.ends_with_nt_sep. rewrite StrFacts.last_app, Hlast by done.
  destruct (Path.is_bare_drive (a +:+ t)) eqn:Hd; [|done].
  apply bare_drive_length in Hd. rewrite length_app in Hd. lia.
Qed.

Lemma temp_root_join host σ root n :
  temp_root host σ = Some root →
  plain_name host n = true →
  os_path_join host root n = Fs.child (sep host) root n.
Proof.
  unfold temp_root, plain_name, os_path_join, Fs.child, sep, sep_char, windows.
  destruct (String.eqb (h_system host) "Windows").
  - destruct (environ σ !! "LOCALAPPDATA") as [v|]; [|done].
    intros [= <-] _.
    assert (∃ t, Path.nt_join v "Temp" = v +:+ t ∧
                 Str.last t = Some "p"%char ∧ 3 ≤ String.length t)
      as (t & -> & Hlast & Hlen).
    { unfold Path.nt_join. destruct (_ || _); eexists; split_and!;
        try reflexivity; simpl; lia. }
    by apply nt_join_dir.
  - destruct (String.eqb (h_system host) "Linux"); [|done].
    intros [= <-] Hn. apply negb_true_iff in Hn.
    unfold Path.posix_join. by rewrite StrFacts.startswith_sep_mem.
Qed.

End PathFacts.

Module FsFacts.

Lemma remove_tree_lookup sep p (f : FS) k :
  Fs.remove_tree sep p f !! k =
    if decide (k = p) then None
    else if Fs.under sep p k then None
    else Fs.unlink sep p k <$> f !! k.
Proof.
  unfold Fs.remove_tree. rewrite map_lookup_imap.
  destruct (f !! k) as [nd|]; simpl; [done|].
  by repeat case_match.
Qed.

Lemma filter_all {A} (P : A → Prop) `{!∀ x, Decision (P x)} (l : list A) :
  Forall P l → filter P l = l.
Proof.
  induction 1 as [|x l Hx _ IH]; [done|].
  by rewrite filter_cons_True, IH.
Qed.

Lemma child_inj sep d : Inj (=) (=) (Fs.child sep d).
Proof.
  intros x y H. unfold Fs.child in H.
  by apply String.app_inj, String.app_inj in H.
Qed.

(** the parent is neither its child nor below it *)
Lemma child_ne_parent c d x : d ≠ Fs.child (String c "") d x.
Proof.
  unfold Fs.child. intros H.
  rewrite <- (StrFacts.app_nil_r d) in H at 1.
  by apply String.app_inj in H.
Qed.

Lemma parent_not_under c d x :
  Fs.under (String c "") (Fs.child (String c "") d x) d = false.
Proof.
  unfold Fs.under, Fs.child. rewrite StrFacts.app_assoc.
  rewrite <- (StrFacts.app_nil_r d) at 2.
  rewrite StrFacts.prefix_app_cancel. done.
Qed.

(** a sibling with a plain name is not below the child *)
Lemma sibling_not_under c d x y :
  Str.mem c y = false →
  Fs.under (String c "") (Fs.child (String c "") d x) (Fs.child (String c "") d y) = false.
Proof.
  intros Hy. unfold Fs.under, Fs.child.
  rewrite !StrFacts.app_assoc, !StrFacts.prefix_app_cancel.
  destruct (String.prefix _ _) eqn:Hp; [|done].
  apply StrFacts.prefix_sep_mem in Hp. congruence.
Qed.

(** nothing a directory [k] lists is the child [x] of [d], when [x] is
    plain and [k] is itself a child of [d] *)
Lemma nephew_ne c d x y z :
  Str.mem c x = false →
  Fs.child (String c "") (Fs.child (String c "") d y) z ≠ Fs.child (String c "") d x.
Proof.
  intros Hx H. unfold Fs.child in H. rewrite !StrFacts.app_assoc in H.
  apply String.app_inj, String.app_inj in H. subst x.
  rewrite StrFacts.app_cons, StrFacts.app_nil_l in Hx.
  by rewrite StrFacts.mem_sep_app in Hx.
Qed.

End FsFacts.

Lemma bind_assoc {A B C} (m : M A) (k : A → M B) (h : B → M C) σ :
  bind (bind m k) h σ = bind m (λ a, bind (k a) h) σ.
Proof.
  unfold bind. destruct (m σ) as [[[a|e] σ1] t1]; [|done].
  destruct (k a σ1) as [[[b|e] σ2] t2]; [|done].
  destruct (h b σ2) as [[r σ3] t3]. by rewrite app_assoc.
Qed.

Section Sweep.

Variable host : Host.
Variable root : string.
Variable f0 : FS.
Variable L : list string.
Variable lk0 : bool.

Hypothesis Hjoin : ∀ n,
  plain_name host n = true →
  os_path_join host root n = Fs.child (sep host) root n.
Hypothesis Hroot : f0 !! root = Some (Dir L lk0).

Abbreviation stale := (is_stale host f0 root).
Abbreviation blocked := (is_blocked host f0 root).
Abbreviation child := (Fs.child (sep host) root).
Abbreviation swept := (swept host root f0 L lk0).
Abbreviation sweep_entry := (sweep_entry host root).

Lemma swept_init : swept [] f0.
Proof.
  split_and!.
  - rewrite FsFacts.filter_all; [done|]. apply Forall_forall. intros x _.
    apply not_elem_of_nil.
  - done.
  - intros m Hm. by apply elem_of_nil in Hm.
Qed.

Lemma swept_proper R R' f :
  (∀ x, x ∈ R ↔ x ∈ R') → swept R f → swept R' f.
Proof.
  intros Heq (H1 & H2 & H3). split_and!.
  - rewrite H1. do 2 f_equal. apply list_filter_iff. intros x. by rewrite Heq.
  - intros m Hp Hm. apply H2; [done|]. by rewrite Heq.
  - intros m Hm. apply H3. by rewrite Heq.
Qed.

Lemma swept_remove R f n :
  swept R f →
  plain_name host n = true →
  swept (R ++ [n]) (Fs.remove_tree (sep host) (child n) f).
Proof.
  intros (H1 & H2 & H3) Hn. unfold plain_name in Hn.
  apply negb_true_iff in Hn. unfold sep in *.
  split_and!.
  - rewrite FsFacts.remove_tree_lookup.
    destruct (decide (root = _)) as [E|_]; [by apply FsFacts.child_ne_parent in E|].
    rewrite FsFacts.parent_not_under, H1. simpl. do 2 f_equal.
    rewrite list_filter_filter. apply list_filter_iff. intros x.
    rewrite not_elem_of_app, list_elem_of_singleton. split.
    + intros [Hc Hx]. split; [done|]. by intros ->.
    + intros [Hx Hc]. split; [|done]. by intros ?%FsFacts.child_inj.
  - intros m Hm [HmR Hmn]%not_elem_of_app.
    rewrite list_elem_of_singleton in Hmn.
    unfold plain_name in Hm. apply negb_true_iff in Hm.
    unfold sep in *. rewrite FsFacts.remove_tree_lookup.
    destruct (decide (_ = _)) as [E|_]; [by apply FsFacts.child_inj in E|].
    rewrite FsFacts.sibling_not_under by done.
    rewrite (H2 m); [|by unfold plain_name; rewrite Hm|done].
    destruct (f0 !! Fs.child _ root m) as [[|l lk]|]; simpl; try done.
    rewrite FsFacts.filter_all; [done|].
    apply Forall_forall. intros z _. by apply FsFacts.nephew_ne.
  - intros m [HmR|Hmn]%elem_of_app; unfold sep in *.
    + rewrite FsFacts.remove_tree_lookup, (H3 m HmR).
      by repeat case_match.
    + apply list_elem_of_singleton in Hmn as ->.
      rewrite FsFacts.remove_tree_lookup. by rewrite decide_True.
Qed.

Lemma remove_if_prefixed_run full_path n :
  remove_if_prefixed host full_path n dir_prefixes =
    if Str.startswith n "tmp" || Str.startswith n "rust_mozpr"
    then shutil_rmtree host full_path
    else ret tt.
Proof.
  unfold dir_prefixes. simpl.
  destruct (Str.startswith n "tmp"); [done|].
  by destruct (Str.startswith n "rust_mozpr").
Qed.

Lemma cleanup_loop_cons n rest σ :
  cleanup_loop host root (n :: rest) σ =
    bind (sweep_entry n) (λ _, cleanup_loop host root rest) σ.
Proof. unfold sweep_entry. by rewrite bind_assoc. Qed.

Lemma sweep_entry_eq n σ :
  sweep_entry n σ =
    let full_path := os_path_join host root n in
    if Fs.isdir (fs σ) full_path &&
       (Str.startswith n "tmp" || Str.startswith n "rust_mozpr")
    then (res (shutil_rmtree host full_path σ),
          final (shutil_rmtree host full_path σ),
          [EvIsdir full_path; EvRmtree full_path])
    else (Ok tt, σ, [EvIsdir full_path]).
Proof.
  unfold sweep_entry, bind, os_path_isdir. rewrite remove_if_prefixed_run. simpl.
  destruct (Fs.isdir _ _); simpl; [|done].
  destruct (_ || _); simpl; [|done].
  unfold shutil_rmtree. by destruct (Fs.rmtree _ _ _) as [r f].
Qed.

Lemma sweep_entry_run R n σ :
  swept R (fs σ) →
  plain_name host n = true →
  let o := sweep_entry n σ in
  environ (final o) = environ σ ∧
  if decide (n ∈ R) then res o = Ok tt ∧ final o = σ
  else if stale n then
    if blocked n
    then res o = Raise (PermissionError (os_path_join host root n)) ∧ final o = σ
    else res o = Ok tt ∧
         fs (final o) = Fs.remove_tree (sep host) (child n) (fs σ)
  else res o = Ok tt ∧ final o = σ.
Proof.
  intros (H1 & H2 & H3) Hn. simpl.
  rewrite sweep_entry_eq. simpl.
  unfold is_blocked, is_stale, Fs.isdir, shutil_rmtree, Fs.rmtree.
  rewrite (Hjoin n Hn).
  destruct (decide (n ∈ R)) as [HR|HR].
  { by rewrite (H3 n HR). }
  rewrite (H2 n Hn HR).
  destruct (f0 !! child n) as [[|l lk]|] eqn:Hf0; simpl; try done.
  destruct (_ || _); simpl; [|done].
  destruct σ as [env f]; by destruct lk.
Qed.

Lemma cleanup_loop_sweep rest : ∀ done σ,
  swept (filter (λ x, stale x = true) done) (fs σ) →
  Forall (λ x, plain_name host x = true) rest →
  Forall (λ x, blocked x = false) done →
  let o := cleanup_loop host root rest σ in
  environ (final o) = environ σ ∧
  ((res o = Ok tt ∧
    Forall (λ x, blocked x = false) rest ∧
    swept (filter (λ x, stale x = true) (done ++ rest)) (fs (final o))) ∨
   (∃ pre n post,
      rest = pre ++ n :: post ∧
      Forall (λ x, blocked x = false) pre ∧
      blocked n = true ∧
      res o = Raise (PermissionError (os_path_join host root n)) ∧
      swept (filter (λ x, stale x = true) (done ++ pre)) (fs (final o)))).
Proof.
  induction rest as [|n rest IH]; intros done σ Hsw Hplain Hdone; cbv zeta.
  { split; [done|]. left. rewrite app_nil_r. split_and!; [done|constructor|done]. }
  apply Forall_cons in Hplain as [Hn Hplain].
  rewrite cleanup_loop_cons, res_bind, final_bind.
  destruct (sweep_entry_run _ n σ Hsw Hn) as [Henv Hrun].
  set (o1 := sweep_entry n σ) in *.
  (* the state after this turn, when it does not raise *)
  assert (Hnext : res o1 = Ok tt →
    blocked n = false →
    swept (filter (λ x, stale x = true) (done ++ [n])) (fs (final o1)) →
    environ (final (cleanup_loop host root rest (final o1))) = environ σ ∧
    ((res (cleanup_loop host root rest (final o1)) = Ok tt ∧
      Forall (λ x, blocked x = false) (n :: rest) ∧
      swept (filter (λ x, stale x = true) (done ++ n :: rest))
        (fs (final (cleanup_loop host root rest (final o1))))) ∨
     (∃ pre n' post,
        n :: rest = pre ++ n' :: post ∧
        Forall (λ x, blocked x = false) pre ∧
        blocked n' = true ∧
        res (cleanup_loop host root rest (final o1))
          = Raise (PermissionError (os_path_join host root n')) ∧
        swept (filter (λ x, stale x = true) (done ++ pre))
          (fs (final (cleanup_loop host root rest (final o1))))))).
  { intros _ Hb Hsw'.
    destruct (IH (done ++ [n]) (final o1) Hsw' Hplain) as [Henv' Hcases].
    { apply Forall_app. by repeat constructor. }
    split; [congruence|].
    destruct Hcases as [(Hr & Hall & Hfin)|(pre & n' & post & -> & Hpre & Hb' & Hr & Hfin)].
    - left. rewrite <- app_assoc in Hfin. split_and!; [done|by constructor|done].
    - right. exists (n :: pre), n', post. rewrite <- app_assoc in Hfin.
      split_and!; [done|by constructor|done..]. }
  destruct (decide (n ∈ _)) as [HR|HR].
  { destruct Hrun as [Hr Hf]. rewrite Hr. apply Hnext; [done| |].
    - apply list_elem_of_filter in HR as [_ HR].
      rewrite Forall_forall in Hdone. by apply Hdone.
    - rewrite Hf. eapply swept_proper; [|done]. intros x.
      rewrite filter_app, elem_of_app, !list_elem_of_filter, list_elem_of_singleton.
      apply list_elem_of_filter in HR as [? ?].
      split; [by left|]. by intros [?|[? ->]]. }
  destruct (stale n) eqn:Hst.
  - destruct (blocked n) eqn:Hb; destruct Hrun as [Hr Hf]; rewrite Hr.
    + split; [by rewrite Hf|]. right. exists [], n, rest.
      rewrite Hf, app_nil_r. split_and!; [done|constructor|done..].
    + apply Hnext; [done..|]. rewrite Hf, filter_app, filter_cons_True by done.
      by apply swept_remove.
  - destruct Hrun as [Hr Hf]. rewrite Hr. apply Hnext; [done| |].
    + unfold is_blocked. by rewrite Hst.
    + rewrite Hf, filter_app, filter_cons_False, app_nil_r by congruence. done.
Qed.

End Sweep.

Section Cleanup.

Variable host : Host.

Lemma cleanup_resources_rooted σ root :
  temp_root host σ = Some root →
  __cleanup_resources host σ
    = bind (os_listdir root) (λ names, cleanup_loop host root names) σ.
Proof.
  unfold temp_root, __cleanup_resources, platform_system.
  rewrite bind_ret_l. intros Hroot.
  destruct (String.eqb (h_system host) "Windows").
  - rewrite bind_assoc. unfold bind at 1, os_environ_getitem, getitem.
    destruct (environ σ !! "LOCALAPPDATA") as [v|]; [|done].
    injection Hroot as <-. rewrite bind_ret_l.
    by destruct (bind _ _ σ) as [[r σ'] t].
  - destruct (String.eqb (h_system host) "Linux"); [|done].
    injection Hroot as <-. by rewrite bind_ret_l.
Qed.

Lemma cleanup_resources_run σ root entries lk :
  temp_root host σ = Some root →
  fs σ !! root = Some (Dir entries lk) →
  res (__cleanup_resources host σ) = res (cleanup_loop host root entries σ) ∧
  final (__cleanup_resources host σ) = final (cleanup_loop host root entries σ).
Proof.
  intros Hroot Hfs. rewrite (cleanup_resources_rooted σ root Hroot).
  rewrite res_bind, final_bind.
  unfold os_listdir, Fs.listdir, res at 1 3, final at 2 4. simpl.
  by rewrite Hfs.
Qed.


(** the sweep of a listed temp root, from the loop *)
Lemma cleanup_resources_sweep σ root entries lk :
  temp_root host σ = Some root →
  fs σ !! root = Some (Dir entries lk) →
  Forall (λ n, plain_name host n = true) entries →
  let o := __cleanup_resources host σ in
  (res o = Ok tt ∧
   Forall (λ x, is_blocked host (fs σ) root x = false) entries ∧
   swept host root (fs σ) entries lk
     (filter (λ x, is_stale host (fs σ) root x = true) entries) (fs (final o))) ∨
  (∃ pre n post,
     entries = pre ++ n :: post ∧
     Forall (λ x, is_blocked host (fs σ) root x = false) pre ∧
     is_blocked host (fs σ) root n = true ∧
     res o = Raise (PermissionError (os_path_join host root n)) ∧
     swept host root (fs σ) entries lk
       (filter (λ x, is_stale host (fs σ) root x = true) pre) (fs (final o))).
Proof.
  intros Hroot Hfs Hplain. simpl.
  destruct (cleanup_resources_run σ root entries lk Hroot Hfs) as [-> ->].
  assert (Hjoin : ∀ n, plain_name host n = true →
            os_path_join host root n = Fs.child (sep host) root n).
  { intros n. by apply PathFacts.temp_root_join with σ. }
  destruct (cleanup_loop_sweep host root (fs σ) entries lk Hjoin entries [] σ)
    as [_ H]; [by apply swept_init|done|constructor|].
  done.
Qed.

End Cleanup.

Lemma filter_ext_elem {A} (P Q : A → Prop)
    `{!∀ x, Decision (P x)} `{!∀ x, Decision (Q x)} (l : list A) :
  (∀ x, x ∈ l → P x ↔ Q x) → filter P l = filter Q l.
Proof.
  induction l as [|a l IH]; intros Hext; [done|].
  rewrite !filter_cons.
  destruct (decide (P a)) as [Ha|Ha], (decide (Q a)) as [Hb|Hb].
  - f_equal. apply IH. intros x Hx. apply Hext. by right.
  - exfalso. apply Hb, Hext; [by left|done].
  - exfalso. apply Ha, Hext; [by left|done].
  - apply IH. intros x Hx. apply Hext. by right.
Qed.

(** C8 (as the code has it). Over a temp root that lists plain names:
    whatever the outcome, every entry that is not a directory named with
    one of the prefixes [tmp], [rust_mozpr] stays listed and is left as it
    was; and when cleanup returns, which it does when no removal fails,
    it has removed exactly the directories so named: they are gone and
    the listing keeps the other entries in their order. *)
Theorem cleanup_removes_exactly_the_prefixed_directories host σ root entries lk :
  temp_root host σ = Some root →
  fs σ !! root = Some (Dir entries lk) →
  Forall (λ n, plain_name host n = true) entries →
  (∃ kept,
     fs (final (__cleanup_resources host σ)) !! root = Some (Dir kept lk) ∧
     ∀ n, n ∈ entries → is_stale host (fs σ) root n = false →
          n ∈ kept ∧
          fs (final (__cleanup_resources host σ)) !! os_path_join host root n
            = fs σ !! os_path_join host root n) ∧
  (res (__cleanup_resources host σ) = Ok tt →
     fs (final (__cleanup_resources host σ)) !! root
       = Some (Dir (filter (λ n, is_stale host (fs σ) root n = false) entries) lk) ∧
     ∀ n, n ∈ entries → is_stale host (fs σ) root n = true →
          fs (final (__cleanup_resources host σ)) !! os_path_join host root n = None) ∧
  (Forall (λ n, is_blocked host (fs σ) root n = false) entries →
     res (__cleanup_resources host σ) = Ok tt).
Proof.
  intros Hroot Hfs Hplain.
  assert (Hjoin : ∀ n, plain_name host n = true →
            os_path_join host root n = Fs.child (sep host) root n).
  { intros n. by apply PathFacts.temp_root_join with σ. }
  pose proof Hplain as Hplain'. rewrite Forall_forall in Hplain.
  assert (Hframe : ∀ X f,
    swept host root (fs σ) entries lk
      (filter (λ x, is_stale host (fs σ) root x = true) X) f →
    ∃ kept, f !! root = Some (Dir kept lk) ∧
      ∀ n, n ∈ entries → is_stale host (fs σ) root n = false →
           n ∈ kept ∧ f !! os_path_join host root n = fs σ !! os_path_join host root n).
  { intros X f (H1 & H2 & _). eexists. split; [exact H1|].
    intros n Hn Hst.
    assert (n ∉ filter (λ x, is_stale host (fs σ) root x = true) X).
    { rewrite list_elem_of_filter. intros [? _]. congruence. }
    split; [by apply list_elem_of_filter|].
    rewrite (Hjoin n) by auto. apply H2; auto. }
  destruct (cleanup_resources_sweep host σ root entries lk Hroot Hfs Hplain')
    as [(Hr & Hall & Hsw)|(pre & n & post & Heq & Hpre & Hb & Hr & Hsw)].
  - split_and!; [by eapply Hframe| |done].
    intros _. destruct Hsw as (H1 & _ & H3). split.
    + rewrite H1. do 2 f_equal. apply filter_ext_elem. intros x Hx.
      rewrite list_elem_of_filter. destruct (is_stale _ _ _ x).
      * split; [intros Hn; by exfalso; apply Hn|done].
      * split; [done|by intros _ [? _]].
    + intros n Hn Hst. rewrite (Hjoin n) by auto. apply H3.
      by apply list_elem_of_filter.
  - split_and!; [by eapply Hframe|by rewrite Hr|].
    intros Hall. rewrite Heq in Hall.
    apply Forall_app in Hall as [_ [Hn _]%Forall_cons]. congruence.
Qed.

Lemma get_default_firefox_profile_final host σ :
  final (__get_default_firefox_profile host σ) = σ.
Proof.
  unfold __get_default_firefox_profile, platform_system. rewrite bind_ret_l.
  destruct (String.eqb _ "Windows").
  - unfold __win_default_firefox_profile_path, bind, os_getenv, os_listdir, raise, ret.
    destruct (environ σ !! "APPDATA"); simpl; [|done].
    by destruct (Fs.listdir _ _).
  - destruct (String.eqb _ "Linux"); [|done].
    unfold __linux_default_firefox_profile_path.
    destruct (expanduser_run host "/.mozilla/firefox" σ) as [p Hp].
    unfold bind at 1. rewrite Hp.
    unfold bind, os_path_exists, os_listdir, raise, ret. simpl.
    destruct (Fs.exists_ _ _); simpl; [|done].
    by destruct (Fs.listdir _ _).
Qed.



(** ** Cleanup only ever removes *)

Lemma shrinks_refl f : shrinks f f.
Proof. intros k. destruct (f !! k) as [[|l lk]|]; eauto. Qed.

Lemma shrinks_trans f1 f2 f3 : shrinks f1 f2 → shrinks f2 f3 → shrinks f1 f3.
Proof.
  intros H12 H23 k. specialize (H12 k). specialize (H23 k).
  destruct (f3 !! k) as [[|l3 lk]|]; [| |done].
  - by rewrite H23 in H12.
  - destruct H23 as (l2 & E2 & H2). rewrite E2 in H12.
    destruct H12 as (l1 & E1 & H1). eauto.
Qed.

Lemma shrinks_remove_tree sep p f : shrinks f (Fs.remove_tree sep p f).
Proof.
  intros k. rewrite FsFacts.remove_tree_lookup.
  destruct (decide (k = p)); [done|]. destruct (Fs.under sep p k); [done|].
  destruct (f !! k) as [[|l lk]|]; simpl; [done| |done].
  exists l. split; [done|]. by intros x [_ ?]%list_elem_of_filter.
Qed.

Section Shrinking.

Variable host : Host.

Lemma sweep_entry_shrinks root n σ :
  environ (final (sweep_entry host root n σ)) = environ σ ∧
  shrinks (fs σ) (fs (final (sweep_entry host root n σ))).
Proof.
  rewrite sweep_entry_eq. simpl.
  destruct (_ && _); [|split; [done|apply shrinks_refl]].
  unfold shutil_rmtree, Fs.rmtree, final. simpl.
  destruct (fs σ !! _) as [[|l [|]]|]; simpl;
    auto using shrinks_refl, shrinks_remove_tree.
Qed.

Lemma cleanup_loop_shrinks root names : ∀ σ,
  environ (final (cleanup_loop host root names σ)) = environ σ ∧
  shrinks (fs σ) (fs (final (cleanup_loop host root names σ))).
Proof.
  induction names as [|n names IH]; intros σ.
  { split; [done|apply shrinks_refl]. }
  rewrite cleanup_loop_cons, final_bind.
  destruct (sweep_entry_shrinks root n σ) as [He Hs].
  destruct (res (sweep_entry host root n σ)); [|done].
  destruct (IH (final (sweep_entry host root n σ))) as [He' Hs'].
  split; [congruence|]. by eapply shrinks_trans.
Qed.

Lemma cleanup_resources_shrinks σ :
  environ (final (__cleanup_resources host σ)) = environ σ ∧
  shrinks (fs σ) (fs (final (__cleanup_resources host σ))).
Proof.
  assert (Hlist : ∀ root,
    environ (final (bind (os_listdir root) (λ names, cleanup_loop host root names) σ))
      = environ σ ∧
    shrinks (fs σ)
      (fs (final (bind (os_listdir root) (λ names, cleanup_loop host root names) σ)))).
  { intros root. rewrite final_bind.
    change (final (os_listdir root σ)) with σ.
    change (res (os_listdir root σ)) with (Fs.listdir (fs σ) root).
    destruct (Fs.listdir _ _); [apply cleanup_loop_shrinks|].
    split; [done|apply shrinks_refl]. }
  unfold __cleanup_resources, platform_system. rewrite bind_ret_l.
  destruct (String.eqb _ "Windows").
  - rewrite bind_assoc, final_bind.
    change (final (os_environ_getitem "LOCALAPPDATA" σ)) with σ.
    change (res (os_environ_getitem "LOCALAPPDATA" σ))
      with (getitem (environ σ) "LOCALAPPDATA").
    destruct (getitem _ _); [|split; [done|apply shrinks_refl]].
    rewrite bind_ret_l. apply Hlist.
  - destruct (String.eqb _ "Linux"); rewrite bind_ret_l; [apply Hlist|].
    split; [done|apply shrinks_refl].
Qed.

Lemma profile_parent_environ σ σ' :
  environ σ' = environ σ → profile_parent host σ' = profile_parent host σ.
Proof.
  intros He. unfold profile_parent, os_path_expanduser_home. rewrite He.
  destruct (String.eqb _ "Windows"); [done|].
  destruct (String.eqb _ "Linux"); [|done].
  destruct (environ σ !! "HOME"); [done|]. by destruct (h_pw_dir host).
Qed.

(** a directory without a match has none once cleanup has run *)
Lemma discovery_after_shrinking σ σ' parent entries lk :
  profile_parent host σ = Some parent →
  fs σ !! parent = Some (Dir entries lk) →
  Forall (λ e, is_default_release e = false) entries →
  environ σ' = environ σ →
  shrinks (fs σ) (fs σ') →
  ∀ p, res (__get_default_firefox_profile host σ') = Ok p → p = None.
Proof.
  intros Hp Hfs Hnone He Hs p Hr.
  rewrite <- (profile_parent_environ σ σ' He) in Hp.
  specialize (Hs parent). rewrite Hfs in Hs.
  destruct (fs σ' !! parent) as [[|l' lk']|] eqn:Hfs'; [done| |].
  - destruct Hs as (l & [= <- <-] & Hsub).
    destruct (discovery_listed host σ' parent l' _ Hp Hfs') as (t & Hrun & _).
    rewrite Hrun in Hr. unfold res in Hr. simpl in Hr.
    rewrite first_default_release_none in Hr; [congruence|].
    rewrite Forall_forall in Hnone |- *. auto.
  - destruct (discovery_missing host σ' parent Hp Hfs') as (t & Hrun & _).
    rewrite Hrun in Hr. discriminate.
Qed.

End Shrinking.

Section Launch.

Variable host : Host.

Lemma set_preference_profile k v o : o_profile (set_preference k v o) = o_profile o.
Proof. done. Qed.

Lemma add_argument_profile a o : o_profile (add_argument a o) = o_profile o.
Proof. done. Qed.

(** the options carry the profile they were asked for, or what discovery
    finds when they were asked for none *)
Lemma get_firefox_options_profile p headless private_mode σ opts :
  res (__get_firefox_options host p headless private_mode σ) = Ok opts →
  if Str.falsy_opt p
  then res (__get_default_firefox_profile host σ) = Ok (o_profile opts)
  else o_profile opts = p.
Proof.
  unfold __get_firefox_options. rewrite res_bind.
  assert (Hrest : ∀ prof σ',
    res (bind
           (if headless
            then bind (screeninfo_get_monitors host) (λ monitors,
                   match monitors with
                   | [] => raise (IndexError "list index out of range")
                   | monitor :: _ =>
                       ret (set_preference "network.http.use-cache" (PrefBool false)
                           (set_preference "browser.cache.offline.enable" (PrefBool false)
                           (set_preference "browser.cache.memory.enable" (PrefBool false)
                           (set_preference "browser.cache.disk.enable" (PrefBool false)
                           (set_preference "media.volume_scale" (PrefStr "0.0")
                           (add_argument "--start-maximized"
                           (add_argument ("--window-size=" +:+ pretty (m_width monitor)
                                          +:+ "," +:+ pretty (m_height monitor))
                           (add_argument "--headless"
                              {| o_profile := prof; o_arguments := [];
                                 o_preferences := [] |}))))))))
                   end)
            else ret {| o_profile := prof; o_arguments := []; o_preferences := [] |})
           (λ options,
              ret (if private_mode
                   then set_preference "browser.privatebrowsing.autostart"
                          (PrefBool true) options
                   else options)) σ') = Ok opts →
    o_profile opts = prof).
  { intros prof σ'. rewrite res_bind. destruct headless.
    - rewrite res_bind. unfold screeninfo_get_monitors, lift, res at 1. simpl.
      destruct (h_monitors host) as [[|m ms]|]; try discriminate.
      unfold res, ret. simpl. intros [= <-]. by destruct private_mode.
    - unfold res, ret. simpl. intros [= <-]. by destruct private_mode. }
  destruct (Str.falsy_opt p).
  - destruct (res (__get_default_firefox_profile host σ)) as [prof|]; [|discriminate].
    intros H. apply Hrest in H. congruence.
  - unfold res at 1, ret at 1. simpl. apply Hrest.
Qed.

Lemma try_finally_no_launch σ wire opts :
  EvLaunch wire opts ∉
    log (try_finally (session_try host) (session_finally host) σ).
Proof.
  rewrite try_finally_run. unfold log at 1. simpl. intros Hin.
  destruct (session_finally_log host (final (session_try host σ)))
    as (after & Hfin & Hafter).
  pose proof (session_try_only_page host σ) as Hpage.
  rewrite Hfin in Hin. rewrite Forall_forall in Hpage, Hafter.
  apply elem_of_app in Hin as [Hin|Hin]; [by apply Hpage in Hin|].
  apply elem_of_cons in Hin as [Hin|Hin]; [discriminate|by apply Hafter in Hin].
Qed.

(** the options of a launch, for a call without a profile: discovery
    found [p], and the options were built for [p] once cleanup had run *)
Lemma launch_options_default quiet σ wire opts :
  EvLaunch wire opts ∈ log (get_session_data host "" quiet σ) →
  ∃ p σ2,
    res (__get_default_firefox_profile host σ) = Ok p ∧
    environ σ2 = environ σ ∧
    shrinks (fs σ) (fs σ2) ∧
    res (__get_firefox_options host p true false σ2) = Ok opts.
Proof.
  unfold get_session_data. change (Str.falsy "") with true. cbv iota.
  rewrite log_bind. intros Hin.
  pose proof (only_fs_get_default_firefox_profile host σ) as Hd.
  rewrite Forall_forall in Hd.
  apply elem_of_app in Hin as [Hin|Hin]; [by apply Hd in Hin|].
  destruct (res (__get_default_firefox_profile host σ)) as [p|] eqn:Hp;
    [|by apply elem_of_nil in Hin].
  rewrite get_default_firefox_profile_final in Hin.
  exists p, (final (__cleanup_resources host σ)).
  destruct (cleanup_resources_shrinks host σ) as [He Hs].
  split_and!; try done.
  rewrite log_bind in Hin.
  set (announce := if negb quiet then _ else _) in Hin.
  assert (Ha : res (announce σ) = Ok tt ∧ final (announce σ) = σ ∧
               Forall (λ ev, is_host_event ev = true) (log (announce σ))).
  { subst announce. destruct quiet; simpl; by repeat constructor. }
  destruct Ha as (Har & Haf & Hal). rewrite Forall_forall in Hal.
  apply elem_of_app in Hin as [Hin|Hin]; [by apply Hal in Hin|].
  rewrite Har, Haf, log_bind in Hin.
  pose proof (only_fs_cleanup_resources host σ) as Hc.
  rewrite Forall_forall in Hc.
  apply elem_of_app in Hin as [Hin|Hin]; [by apply Hc in Hin|].
  destruct (res (__cleanup_resources host σ)); [|by apply elem_of_nil in Hin].
  rewrite log_bind in Hin.
  pose proof (only_fs_get_firefox_options host p true false
                (final (__cleanup_resources host σ))) as Ho.
  rewrite Forall_forall in Ho.
  apply elem_of_app in Hin as [Hin|Hin]; [by apply Ho in Hin|].
  destruct (res (__get_firefox_options host p true false _)) as [opts'|];
    [|by apply elem_of_nil in Hin].
  rewrite log_bind in Hin.
  apply elem_of_app in Hin as [Hin|Hin].
  - destruct (get_firefox_webdriver_run host opts' false
                (final (__get_firefox_options host p true false
                          (final (__cleanup_resources host σ)))))
      as [[Hl _]|[Hl _]]; rewrite Hl in Hin.
    + by apply elem_of_nil in Hin.
    + apply list_elem_of_singleton in Hin. congruence.
  - destruct (res (__get_firefox_webdriver host opts' false _));
      [|by apply elem_of_nil in Hin].
    by apply try_finally_no_launch in Hin.
Qed.

End Launch.

(** C6 (as the code has it). For a call without a profile: when the
    profile parent directory is not there, [get_session_data] raises the
    error of discovery (the [RuntimeError] of the existence check on
    Linux, the [FileNotFoundError] of the listing on Windows) and has only
    touched the filesystem, so no browser was launched.  When the
    directory is there and no entry ends in [.default-release], discovery
    returns [None] without raising, and a browser the call launches is
    launched with the profile [None]. *)
Theorem unresolved_default_profile host σ parent quiet :
  profile_parent host σ = Some parent →
  (fs σ !! parent = None →
     res (get_session_data host "" quiet σ) = Raise (missing_parent_error host parent) ∧
     Forall (λ ev, is_fs_event ev = true) (log (get_session_data host "" quiet σ))) ∧
  (∀ entries lk,
     fs σ !! parent = Some (Dir entries lk) →
     Forall (λ e, is_default_release e = false) entries →
     res (__get_default_firefox_profile host σ) = Ok None ∧
     ∀ wire opts,
       EvLaunch wire opts ∈ log (get_session_data host "" quiet σ) →
       o_profile opts = None).
Proof.
  intros Hp. split.
  - intros Hfs.
    destruct (discovery_missing host σ parent Hp Hfs) as (t & Hrun & Ht).
    unfold get_session_data. change (Str.falsy "") with true. cbv iota.
    rewrite res_bind, log_bind, Hrun. unfold res, log. simpl.
    by rewrite app_nil_r.
  - intros entries lk Hfs Hnone.
    pose proof (discovery_unmatched host σ parent entries lk Hp Hfs Hnone) as Hok.
    split; [done|].
    intros wire opts Hin.
    apply launch_options_default in Hin as (p & σ2 & Hr & He & Hs & Ho).
    assert (p = None) as -> by congruence.
    apply get_firefox_options_profile in Ho. simpl in Ho.
    by eapply discovery_after_shrinking.
Qed.

(** * Further properties of the module *)

(** ** What cleanup removes, and what a second cleanup finds *)

Section CleanupMore.

Variable host : Host.

Lemma temp_root_none_silent σ :
  temp_root host σ = None →
  log (__cleanup_resources host σ) = [] ∧ final (__cleanup_resources host σ) = σ.
Proof.
  unfold temp_root, __cleanup_resources, platform_system.
  rewrite bind_ret_l. intros Hroot.
  destruct (String.eqb (h_system host) "Windows").
  - rewrite bind_assoc, log_bind, final_bind.
    change (res (os_environ_getitem "LOCALAPPDATA" σ))
      with (getitem (environ σ) "LOCALAPPDATA").
    unfold getitem. by destruct (environ σ !! "LOCALAPPDATA").
  - destruct (String.eqb (h_system host) "Linux"); [done|].
    by rewrite bind_ret_l.
Qed.

Lemma cleanup_loop_rmtree root names p : ∀ σ,
  EvRmtree p ∈ log (cleanup_loop host root names σ) →
  ∃ n, n ∈ names ∧ p = os_path_join host root n ∧
       Str.startswith n "tmp" || Str.startswith n "rust_mozpr" = true.
Proof.
  induction names as [|n names IH]; intros σ Hin.
  { by apply elem_of_nil in Hin. }
  rewrite cleanup_loop_cons, log_bind in Hin.
  apply elem_of_app in Hin as [Hin|Hin].
  - exists n. split; [by left|].
    rewrite sweep_entry_eq in Hin. simpl in Hin.
    destruct (Fs.isdir _ _); simpl in Hin.
    + destruct (_ || _); [|by apply list_elem_of_singleton in Hin].
      apply elem_of_cons in Hin as [Hin|Hin]; [discriminate|].
      apply list_elem_of_singleton in Hin. by injection Hin as ->.
    + by apply list_elem_of_singleton in Hin.
  - destruct (res (sweep_entry host root n σ)); [|by apply elem_of_nil in Hin].
    destruct (IH _ Hin) as (m & Hm & Hp & Hpre). exists m. split; [by right|done].
Qed.

End CleanupMore.

(** X1. Every directory tree [__cleanup_resources] asks [shutil.rmtree]
    to remove is an entry of the listing of the platform's temp root,
    joined to that root, whose name starts with [tmp] or [rust_mozpr]:
    nothing outside the temp root, and nothing named otherwise, is ever
    passed to [rmtree]. *)
Theorem cleanup_only_removes_prefixed_entries host σ p :
  EvRmtree p ∈ log (__cleanup_resources host σ) →
  ∃ root entries lk n,
    temp_root host σ = Some root ∧
    fs σ !! root = Some (Dir entries lk) ∧
    n ∈ entries ∧
    p = os_path_join host root n ∧
    Str.startswith n "tmp" || Str.startswith n "rust_mozpr" = true.
Proof.
  intros Hin. destruct (temp_root host σ) as [root|] eqn:Hroot.
  - rewrite (cleanup_resources_rooted host σ root Hroot), log_bind in Hin.
    change (log (os_listdir root σ)) with [EvListdir root] in Hin.
    change (res (os_listdir root σ)) with (Fs.listdir (fs σ) root) in Hin.
    change (final (os_listdir root σ)) with σ in Hin.
    apply elem_of_cons in Hin as [Hin|Hin]; [discriminate|].
    unfold Fs.listdir in Hin.
    destruct (fs σ !! root) as [[|entries lk]|] eqn:Hfs;
      try by apply elem_of_nil in Hin.
    apply cleanup_loop_rmtree in Hin as (n & Hn & Hp & Hpre).
    by exists root, entries, lk, n.
  - destruct (temp_root_none_silent host σ Hroot) as [Hl _].
    rewrite Hl in Hin. by apply elem_of_nil in Hin.
Qed.


Section CleanupAgain.

Variable host : Host.

Lemma temp_root_environ σ σ' :
  environ σ' = environ σ → temp_root host σ' = temp_root host σ.
Proof. intros He. unfold temp_root. by rewrite He. Qed.

(** a sweep over names none of which is stale changes nothing *)
Lemma cleanup_loop_idle root names σ :
  Forall (λ n, is_stale host (fs σ) root n = false) names →
  res (cleanup_loop host root names σ) = Ok tt ∧
  final (cleanup_loop host root names σ) = σ.
Proof.
  induction 1 as [|n names Hn _ IH]; [done|].
  rewrite cleanup_loop_cons, res_bind, final_bind, sweep_entry_eq. simpl.
  unfold is_stale in Hn. rewrite Hn. done.
Qed.

End CleanupAgain.

(** X2. Cleanup is idempotent: once [__cleanup_resources] has returned
    over a temp root that lists plain names, no entry the root still
    lists is a directory named with one of the prefixes, and a second
    cleanup returns as well and leaves the environment and the
    filesystem exactly as the first one left them. *)
Theorem cleanup_is_idempotent host σ root entries lk :
  temp_root host σ = Some root →
  fs σ !! root = Some (Dir entries lk) →
  Forall (λ n, plain_name host n = true) entries →
  res (__cleanup_resources host σ) = Ok tt →
  (∃ kept,
     fs (final (__cleanup_resources host σ)) !! root = Some (Dir kept lk) ∧
     Forall (λ n, is_stale host (fs (final (__cleanup_resources host σ))) root n = false)
       kept) ∧
  res (__cleanup_resources host (final (__cleanup_resources host σ))) = Ok tt ∧
  final (__cleanup_resources host (final (__cleanup_resources host σ)))
    = final (__cleanup_resources host σ).
Proof.
  intros Hroot Hfs Hplain Hok.
  assert (Hjoin : ∀ n, plain_name host n = true →
            os_path_join host root n = Fs.child (sep host) root n).
  { intros n. by apply PathFacts.temp_root_join with σ. }
  destruct (cleanup_resources_shrinks host σ) as [Henv _].
  destruct (cleanup_resources_sweep host σ root entries lk Hroot Hfs Hplain)
    as [(_ & _ & H1 & H2 & H3)|(pre & n & post & _ & _ & _ & Hr & _)];
    [|congruence].
  set (σ' := final (__cleanup_resources host σ)) in *.
  rewrite Forall_forall in Hplain.
  assert (Hkept : Forall (λ n, is_stale host (fs σ') root n = false)
            (filter (λ x, x ∉ filter (λ x, is_stale host (fs σ) root x = true) entries)
                    entries)).
  { apply Forall_forall. intros n [Hn Hin]%list_elem_of_filter.
    assert (is_stale host (fs σ) root n = false) as Hst.
    { destruct (is_stale host (fs σ) root n) eqn:E; [|done].
      exfalso. apply Hn. by apply list_elem_of_filter. }
    unfold is_stale, Fs.isdir in Hst |- *.
    rewrite (Hjoin n) in Hst |- * by auto.
    by rewrite (H2 n) by auto. }
  split; [eauto|].
  assert (Hroot' : temp_root host σ' = Some root).
  { by rewrite (temp_root_environ host σ σ' Henv). }
  destruct (cleanup_resources_run host σ' root _ lk Hroot' H1) as [-> ->].
  by apply cleanup_loop_idle.
Qed.


(** X3. When the temp root cannot be listed, because it is not there or
    is not a directory, [__cleanup_resources] raises the error of
    [os.listdir] having asked for nothing else: no entry is examined, no
    tree removed, the state is as before. *)
Theorem cleanup_cannot_list_the_temp_root host σ root :
  temp_root host σ = Some root →
  (∀ entries lk, fs σ !! root ≠ Some (Dir entries lk)) →
  __cleanup_resources host σ
    = (Raise (match fs σ !! root with
              | Some _ => NotADirectoryError root
              | None => FileNotFoundError root
              end), σ, [EvListdir root]).
Proof.
  intros Hroot Hnodir. rewrite (cleanup_resources_rooted host σ root Hroot).
  unfold bind, os_listdir, Fs.listdir.
  destruct (fs σ !! root) as [[|entries lk]|]; try done.
  by destruct (Hnodir entries lk).
Qed.

Section DiscoveryMore.

Variable host : Host.

Lemma first_default_release_some parent entries p :
  first_default_release host parent entries = Some p →
  ∃ entry, entry ∈ entries ∧ is_default_release entry = true ∧
           p = os_path_join host parent entry.
Proof.
  induction entries as [|e es IH]; simpl; [done|].
  destruct (Str.endswith e profile_suffix) eqn:He.
  - intros [= <-]. exists e. split; [by left|done].
  - intros H. destruct (IH H) as (entry & Hin & Hm & Hp).
    exists entry. split; [by right|done].
Qed.

(** what discovery returns over its parent directory *)
Lemma discovery_over_parent σ parent :
  profile_parent host σ = Some parent →
  res (__get_default_firefox_profile host σ) =
    match fs σ !! parent with
    | Some (Dir entries _) => Ok (first_default_release host parent entries)
    | Some File => Raise (NotADirectoryError parent)
    | None => Raise (missing_parent_error host parent)
    end.
Proof.
  intros Hp. destruct (fs σ !! parent) as [[|entries lk]|] eqn:Hfs.
  - revert Hp. unfold profile_parent, __get_default_firefox_profile, platform_system.
    rewrite bind_ret_l.
    destruct (String.eqb (h_system host) "Windows").
    + unfold __win_default_firefox_profile_path, os_getenv, bind at 1.
      destruct (environ σ !! "APPDATA") as [a|]; [|done].
      intros [= <-]. unfold os_listdir, bind, Fs.listdir, ret. by rewrite Hfs.
    + destruct (String.eqb (h_system host) "Linux"); [|done].
      unfold __linux_default_firefox_profile_path.
      destruct (expanduser_run host "/.mozilla/firefox" σ) as [p Hrun].
      rewrite Hrun. intros [= ->]. unfold bind at 1. rewrite Hrun.
      unfold bind, os_path_exists, os_listdir, Fs.exists_, Fs.listdir, ret.
      rewrite Hfs. simpl. by rewrite Hfs.
  - by destruct (discovery_listed host σ parent _ lk Hp Hfs) as (t & -> & _).
  - by destruct (discovery_missing host σ parent Hp Hfs) as (t & -> & _).
Qed.

End DiscoveryMore.

(** X4. Discovery only reads: it leaves environment and filesystem as
    they are, and a path it returns is never made up: on Windows and
    Linux it is the parent directory joined with an entry that the
    parent lists and that ends in [.default-release]; on any other
    platform it is the empty string. *)
Theorem discovery_returns_a_listed_release host σ p :
  res (__get_default_firefox_profile host σ) = Ok (Some p) →
  final (__get_default_firefox_profile host σ) = σ ∧
  ((h_system host ≠ "Windows" ∧ h_system host ≠ "Linux" ∧ p = "") ∨
   (∃ parent entries lk entry,
      profile_parent host σ = Some parent ∧
      fs σ !! parent = Some (Dir entries lk) ∧
      entry ∈ entries ∧
      is_default_release entry = true ∧
      p = os_path_join host parent entry)).
Proof.
  intros Hres. split; [apply get_default_firefox_profile_final|].
  destruct (profile_parent host σ) as [parent|] eqn:Hp.
  - right. rewrite (discovery_over_parent host σ parent Hp) in Hres.
    destruct (fs σ !! parent) as [[|entries lk]|] eqn:Hfs; try done.
    injection Hres as Hres.
    apply first_default_release_some in Hres as (entry & Hin & Hm & ->).
    by exists parent, entries, lk, entry.
  - revert Hp Hres.
    unfold profile_parent, __get_default_firefox_profile, platform_system.
    rewrite bind_ret_l.
    destruct (String.eqb (h_system host) "Windows") eqn:Hw.
    + unfold __win_default_firefox_profile_path, os_getenv, bind at 1.
      by destruct (environ σ !! "APPDATA").
    + destruct (String.eqb (h_system host) "Linux") eqn:Hl.
      * destruct (expanduser_run host "/.mozilla/firefox" σ) as [q Hrun].
        by rewrite Hrun.
      * intros _ [= <-]. left. by apply String.eqb_neq in Hw, Hl.
Qed.

(** X5. On Windows the two directories come from the environment, and a
    variable that is not set ends the call before the filesystem is
    touched: without [APPDATA] discovery raises the [TypeError] of
    joining [None], without [LOCALAPPDATA] cleanup raises [KeyError];
    either way [get_session_data] raises the same before any browser is
    launched. *)
Theorem windows_needs_its_environment host σ quiet :
  h_system host = "Windows" →
  (environ σ !! "APPDATA" = None →
     __get_default_firefox_profile host σ
       = (Raise (TypeError "expected str, bytes or os.PathLike object, not NoneType"),
          σ, []) ∧
     get_session_data host "" quiet σ
       = (Raise (TypeError "expected str, bytes or os.PathLike object, not NoneType"),
          σ, [])) ∧
  (environ σ !! "LOCALAPPDATA" = None →
     __cleanup_resources host σ = (Raise (KeyError "LOCALAPPDATA"), σ, []) ∧
     ∀ profile,
       Str.falsy profile = false →
       res (get_session_data host profile quiet σ) = Raise (KeyError "LOCALAPPDATA") ∧
       Forall (λ ev, is_print_event ev = true)
         (log (get_session_data host profile quiet σ))).
Proof.
  intros Hsys. split.
  - intros Henv.
    assert (Hd : __get_default_firefox_profile host σ
              = (Raise (TypeError "expected str, bytes or os.PathLike object, not NoneType"),
                 σ, [])).
    { unfold __get_default_firefox_profile, platform_system.
      rewrite bind_ret_l, Hsys. simpl.
      unfold __win_default_firefox_profile_path, os_getenv, bind. by rewrite Henv. }
    split; [done|].
    unfold get_session_data. change (Str.falsy "") with true. cbv iota.
    unfold bind at 1. by rewrite Hd.
  - intros Henv.
    assert (Hc : __cleanup_resources host σ = (Raise (KeyError "LOCALAPPDATA"), σ, [])).
    { unfold __cleanup_resources, platform_system.
      rewrite bind_ret_l, Hsys. simpl. rewrite bind_assoc.
      unfold bind, os_environ_getitem, getitem. by rewrite Henv. }
    split; [done|]. intros profile Hprof.
    unfold get_session_data. rewrite Hprof, bind_ret_l.
    set (announce := if negb quiet then _ else _).
    assert (Ha : res (announce σ) = Ok tt ∧ final (announce σ) = σ ∧
                 Forall (λ ev, is_print_event ev = true) (log (announce σ))).
    { subst announce. destruct quiet; simpl; by repeat constructor. }
    destruct Ha as (Har & Haf & Hal).
    rewrite res_bind, log_bind, Har, Haf, res_bind, log_bind, Hc.
    split; [done|]. by rewrite !app_nil_r.
Qed.


(** ** What the driver is asked *)

Lemma filter_driver_host (l : list event) :
  Forall (λ ev, is_host_event ev = true) l →
  filter (λ e, is_driver_event e = true) l = [].
Proof.
  induction 1 as [|e l He _ IH]; [done|].
  rewrite filter_cons_False; [done|]. by destruct e.
Qed.

Lemma filter_driver_fs (l : list event) :
  Forall (λ ev, is_fs_event ev = true) l →
  filter (λ e, is_driver_event e = true) l = [].
Proof.
  intros H. apply filter_driver_host. eapply Forall_impl; [done|]. by intros [].
Qed.

(** the [try] block asks in order and stops at the first call that
    raises; it asks for the cookies only once it holds a user agent *)
Lemma session_try_log host σ :
  ∃ k, 1 ≤ k ≤ 4 ∧
       log (session_try host σ) = take k page_calls ∧
       (k = 4 → ∃ ua,
          br_execute_script (h_browser host) user_agent_script = Ok (Some ua) ∧
          Str.falsy ua = false).
Proof.
  unfold session_try, bind, driver_get, driver_implicitly_wait,
    driver_execute_script, driver_get_cookies, lift, raise, ret, log, page_calls.
  simpl.
  destruct (br_get _ _); simpl; [exists 1; split_and!; [lia..|done|lia]|].
  destruct (br_implicitly_wait _ _); simpl; [exists 2; split_and!; [lia..|done|lia]|].
  destruct (br_execute_script _ _) as [[ua|]|]; simpl;
    try (exists 3; split_and!; [lia..|done|lia]).
  destruct (Str.falsy ua) eqn:Hua; simpl; [exists 3; split_and!; [lia..|done|lia]|].
  exists 4. split_and!; [lia..| |by eauto].
  destruct (br_get_cookies _); simpl; [|done].
  by destruct (comprehension _ _).
Qed.

(** X6. A call of [get_session_data] opens at most one driver session.
    Seen from the driver, the call is nothing at all, or a constructor
    that raised, or: the constructor, then [get], [implicitly_wait(3)],
    [execute_script] and [get_cookies] in this order up to the first one
    that raises, then exactly one [quit].  [get_cookies] is reached only
    after the script reported a non-empty user agent. *)
Theorem driver_sees_one_session host profile quiet σ :
  filter (λ e, is_driver_event e = true)
    (log (get_session_data host profile quiet σ)) = [] ∨
  (∃ opts e,
     br_launch (h_browser host) false opts = Some e ∧
     filter (λ e, is_driver_event e = true)
       (log (get_session_data host profile quiet σ)) = [EvLaunch false opts]) ∨
  (∃ opts k,
     br_launch (h_browser host) false opts = None ∧
     1 ≤ k ≤ 4 ∧
     filter (λ e, is_driver_event e = true)
       (log (get_session_data host profile quiet σ))
       = EvLaunch false opts :: take k page_calls ++ [EvQuit] ∧
     (k = 4 → ∃ ua,
        br_execute_script (h_browser host) user_agent_script = Ok (Some ua) ∧
        Str.falsy ua = false)).
Proof.
  destruct (get_session_data_cases host profile quiet σ)
    as [(e & _ & Hall)|[(pre & opts & e & Hl & Hpre & Hb & _)
                       |(pre & opts & σ1 & Hl & Hpre & Hb & _ & _)]].
  - left. by apply filter_driver_host.
  - right; left. exists opts, e. split; [done|].
    by rewrite Hl, filter_app, (filter_driver_host pre).
  - right; right. simpl in Hl. rewrite try_finally_run in Hl.
    unfold log at 2 in Hl. simpl in Hl.
    destruct (session_finally_log host (final (session_try host σ1)))
      as (after & Hfin & Hafter).
    destruct (session_try_log host σ1) as (k & Hk & Hlog & Hua).
    exists opts, k. split_and!; [done|lia..| |done].
    rewrite Hl, Hfin, Hlog, filter_app, (filter_driver_host pre) by done.
    rewrite filter_cons_True by done. simpl. f_equal.
    rewrite filter_app, filter_cons_True, (filter_driver_fs after) by done.
    f_equal. apply FsFacts.filter_all.
    unfold page_calls. destruct k as [|[|[|[|[|k]]]]]; simpl;
      repeat constructor.
Qed.


(** ** What the call prints *)

Lemma only_weaken {A} (P Q : event → bool) (m : M A) :
  (∀ e, P e = true → Q e = true) → only P m → only Q m.
Proof. intros HPQ Hm σ. eapply Forall_impl; [apply Hm|]. auto. Qed.

Lemma only_try_finally {A} P (body : M A) (fin : M unit) :
  only P body → only P fin → only P (try_finally body fin).
Proof.
  intros Hb Hf σ. rewrite try_finally_run. unfold log at 1. simpl.
  apply Forall_app. split; [apply Hb|apply Hf].
Qed.

Lemma filter_print_none (l : list event) :
  Forall (λ e, negb (is_print_event e) = true) l →
  filter (λ e, is_print_event e = true) l = [].
Proof.
  induction 1 as [|e l He _ IH]; [done|].
  rewrite filter_cons_False; [done|]. by destruct (is_print_event e).
Qed.

Section Console.

Variable host : Host.

Lemma only_silent_webdriver opts wire :
  only (λ e, negb (is_print_event e)) (__get_firefox_webdriver host opts wire).
Proof.
  intros σ. destruct (get_firefox_webdriver_run host opts wire σ) as [[Hl _]|[Hl _]];
    simpl in Hl; rewrite Hl; by repeat constructor.
Qed.

Lemma only_silent_session :
  only (λ e, negb (is_print_event e))
    (try_finally (session_try host) (session_finally host)).
Proof.
  apply only_try_finally.
  - eapply only_weaken; [|apply session_try_only_page]. by intros [].
  - intros σ. destruct (session_finally_log host σ) as (after & -> & Hafter).
    constructor; [done|]. eapply Forall_impl; [done|]. by intros [].
Qed.

(** nothing is printed once the announcement is past *)
Lemma only_silent_after_announcement profile :
  only (λ e, negb (is_print_event e))
    (bind (__cleanup_resources host) (λ _,
       bind (__get_firefox_options host profile true false) (λ opts,
         bind (__get_firefox_webdriver host opts false) (λ _,
           try_finally (session_try host) (session_finally host))))).
Proof.
  apply only_bind.
  { eapply only_weaken; [|apply only_fs_cleanup_resources]. by intros []. }
  intros _. apply only_bind.
  { eapply only_weaken; [|apply only_fs_get_firefox_options]. by intros []. }
  intros opts. apply only_bind; [apply only_silent_webdriver|].
  intros _. apply only_silent_session.
Qed.

End Console.

(** X7. The console sees at most one line.  With [quiet] set the call
    prints nothing.  Otherwise it prints, once the profile is resolved,
    the one line that names the resolved profile ([None] when discovery
    found none); when resolving the profile raises, nothing is printed. *)
Theorem console_sees_one_announcement host profile quiet σ :
  filter (λ e, is_print_event e = true)
    (log (get_session_data host profile quiet σ)) =
    match res (resolve_profile host profile σ) with
    | Ok p => if quiet then [] else [EvPrint (announcement p)]
    | Raise _ => []
    end.
Proof.
  unfold get_session_data, resolve_profile.
  set (resolve := if Str.falsy profile then _ else _).
  assert (Hr : Forall (λ e, negb (is_print_event e) = true) (log (resolve σ))).
  { subst resolve. destruct (Str.falsy profile); [|constructor].
    eapply Forall_impl; [apply only_fs_get_default_firefox_profile|]. by intros []. }
  rewrite log_bind, filter_app, (filter_print_none _ Hr). simpl.
  destruct (res (resolve σ)) as [p|]; [|done].
  rewrite log_bind, filter_app.
  pose proof (only_silent_after_announcement host p) as Hrest.
  destruct quiet; simpl.
  - by rewrite (filter_print_none _ (Hrest _)).
  - by rewrite (filter_print_none _ (Hrest _)).
Qed.


(** ** What the browser is launched with *)

Section LaunchMore.

Variable host : Host.

Lemma get_firefox_options_headless p σ opts :
  res (__get_firefox_options host p true false σ) = Ok opts →
  ∃ m ms, h_monitors host = Ok (m :: ms) ∧
          opts = headless_options (o_profile opts) m.
Proof.
  unfold __get_firefox_options. rewrite res_bind.
  destruct (res _) as [prof|]; [|discriminate].
  rewrite res_bind, res_bind. unfold screeninfo_get_monitors, lift, res at 1. simpl.
  destruct (h_monitors host) as [[|m ms]|]; try discriminate.
  unfold res, ret. simpl. intros [= <-]. by exists m, ms.
Qed.

(** the options of a launch: the profile was resolved to [p], and the
    options were built for [p] *)
Lemma launch_options profile quiet σ wire opts :
  EvLaunch wire opts ∈ log (get_session_data host profile quiet σ) →
  wire = false ∧
  ∃ p σ2,
    res (resolve_profile host profile σ) = Ok p ∧
    res (__get_firefox_options host p true false σ2) = Ok opts.
Proof.
  unfold get_session_data, resolve_profile.
  set (resolve := if Str.falsy profile then _ else _).
  assert (Hr : Forall (λ e, is_fs_event e = true) (log (resolve σ))).
  { subst resolve. destruct (Str.falsy profile); [|constructor].
    apply only_fs_get_default_firefox_profile. }
  rewrite log_bind. intros Hin. rewrite Forall_forall in Hr.
  apply elem_of_app in Hin as [Hin|Hin]; [by apply Hr in Hin|].
  destruct (res (resolve σ)) as [p|]; [|by apply elem_of_nil in Hin].
  rewrite log_bind in Hin.
  set (announce := if negb quiet then _ else _) in Hin.
  assert (Ha : res (announce (final (resolve σ))) = Ok tt ∧
               Forall (λ ev, is_host_event ev = true)
                 (log (announce (final (resolve σ))))).
  { subst announce. destruct quiet; simpl; by repeat constructor. }
  destruct Ha as (Har & Hal). rewrite Forall_forall in Hal.
  apply elem_of_app in Hin as [Hin|Hin]; [by apply Hal in Hin|].
  rewrite Har, log_bind in Hin.
  set (σ1 := final (announce (final (resolve σ)))) in Hin.
  pose proof (only_fs_cleanup_resources host σ1) as Hc.
  rewrite Forall_forall in Hc.
  apply elem_of_app in Hin as [Hin|Hin]; [by apply Hc in Hin|].
  destruct (res (__cleanup_resources host σ1)); [|by apply elem_of_nil in Hin].
  rewrite log_bind in Hin.
  set (σ2 := final (__cleanup_resources host σ1)) in Hin.
  pose proof (only_fs_get_firefox_options host p true false σ2) as Ho.
  rewrite Forall_forall in Ho.
  apply elem_of_app in Hin as [Hin|Hin]; [by apply Ho in Hin|].
  destruct (res (__get_firefox_options host p true false σ2)) as [opts'|] eqn:Hopts;
    [|by apply elem_of_nil in Hin].
  rewrite log_bind in Hin.
  apply elem_of_app in Hin as [Hin|Hin].
  - destruct (get_firefox_webdriver_run host opts' false
                (final (__get_firefox_options host p true false σ2)))
      as [[Hl _]|[Hl _]]; rewrite Hl in Hin.
    + by apply elem_of_nil in Hin.
    + apply list_elem_of_singleton in Hin. injection Hin as -> ->. eauto.
  - destruct (res (__get_firefox_webdriver host opts' false _));
      [|by apply elem_of_nil in Hin].
    by apply try_finally_no_launch in Hin.
Qed.

End LaunchMore.

(** X8. Whatever browser [get_session_data] launches is the plain
    [selenium] Firefox, headless: its options are the three arguments
    [--headless], [--window-size=W,H] for the first monitor and
    [--start-maximized] and the five cache and volume preferences, with
    no private-browsing preference; and a profile the caller supplied is
    the profile it is launched with. *)
Theorem browser_is_launched_headless_with_the_profile
    host profile quiet σ wire opts :
  EvLaunch wire opts ∈ log (get_session_data host profile quiet σ) →
  wire = false ∧
  (∃ m ms, h_monitors host = Ok (m :: ms) ∧
           opts = headless_options (o_profile opts) m) ∧
  (Str.falsy profile = false → o_profile opts = Some profile).
Proof.
  intros Hin. apply launch_options in Hin as (-> & p & σ2 & Hp & Ho).
  split; [done|]. split; [by eapply get_firefox_options_headless|].
  intros Hprof. unfold resolve_profile in Hp. rewrite Hprof in Hp.
  injection Hp as <-.
  apply get_firefox_options_profile in Ho. simpl in Ho. by rewrite Hprof in Ho.
Qed.


(** ** The options *)


(** X10. On a host without a monitor, whether [screeninfo] returns an
    empty list or raises, [get_session_data] never launches a browser
    and never returns: every call raises, having only printed and
    touched the filesystem. *)
Theorem no_monitor_no_session host profile quiet σ :
  (∀ m ms, h_monitors host ≠ Ok (m :: ms)) →
  (∃ e, res (get_session_data host profile quiet σ) = Raise e) ∧
  Forall (λ ev, is_host_event ev = true) (log (get_session_data host profile quiet σ)).
Proof.
  intros Hno.
  assert (Hlaunch : ∀ opts, EvLaunch false opts ∉ log (get_session_data host profile quiet σ)).
  { intros opts Hin. apply launch_options in Hin as (_ & p & σ2 & _ & Ho).
    apply get_firefox_options_headless in Ho as (m & ms & Hm & _).
    by apply Hno in Hm. }
  destruct (get_session_data_cases host profile quiet σ)
    as [(e & He & Hall)|[(pre & opts & e & Hl & _)|(pre & opts & σ1 & Hl & _)]].
  - eauto.
  - exfalso. apply (Hlaunch opts). rewrite Hl, elem_of_app. right. by left.
  - exfalso. apply (Hlaunch opts). simpl in Hl. rewrite Hl, elem_of_app. right. by left.
Qed.


(** ** The driver constructor and [PATH] *)

Lemma substring_app (a b : string) :
  String.substring (String.length a) (String.length b) (a +:+ b) = b.
Proof.
  induction a as [|x a IH]; [|by rewrite StrFacts.app_cons].
  rewrite StrFacts.app_nil_l. simpl.
  induction b as [|y b IHb]; [done|]. simpl. by rewrite IHb.
Qed.

(** [find] finds what was just appended *)
Lemma find_appended (a b : string) : b ≠ "" → Str.find_fails (a +:+ b) b = false.
Proof.
  intros Hb. unfold Str.find_fails.
  destruct (String.index 0 b (a +:+ b)) eqn:E; [done|].
  exfalso. apply (String.index_correct3 0 (String.length a) b (a +:+ b) E Hb);
    [lia|apply substring_app].
Qed.

Section Constructor.

Variable host : Host.

(** the environment the constructor leaves *)
Lemma get_firefox_webdriver_environ opts wire σ :
  environ (final (__get_firefox_webdriver host opts wire σ)) =
    if String.eqb (h_system host) "Windows" then
      match h_which host "firefox", environ σ !! "PATH" with
      | None, Some path =>
          if Str.find_fails path DEFAULT_WINDWOS_FIREFOX_PATH
          then <["PATH" := path +:+ ";" +:+ DEFAULT_WINDWOS_FIREFOX_PATH]> (environ σ)
          else environ σ
      | _, _ => environ σ
      end
    else environ σ.
Proof.
  assert (Hl : ∀ σ', environ (final (webdriver_Firefox host wire opts σ')) = environ σ').
  { intros σ'. unfold webdriver_Firefox. by destruct (br_launch _ _ _). }
  unfold __get_firefox_webdriver, platform_system. rewrite bind_ret_l.
  destruct (String.eqb (h_system host) "Windows"); [|by rewrite bind_ret_l, Hl].
  destruct (h_which host "firefox"); [by rewrite bind_ret_l, Hl|].
  rewrite bind_assoc, final_bind.
  change (res (os_environ_getitem "PATH" σ)) with (getitem (environ σ) "PATH").
  change (final (os_environ_getitem "PATH" σ)) with σ.
  unfold getitem. destruct (environ σ !! "PATH") as [path|]; [|done].
  destruct (Str.find_fails _ _); [|by rewrite bind_ret_l, Hl].
  rewrite final_bind. unfold os_environ_setitem, res at 1, final at 2. simpl.
  by rewrite Hl.
Qed.

End Constructor.

(** X11. [__get_firefox_webdriver] changes no environment variable but
    [PATH], and [PATH] only on Windows, only when [firefox] is not found
    and [PATH] does not mention the default Firefox directory: then that
    directory is appended after a semicolon.  The appended directory is
    found the next time, so a second call leaves the environment as the
    first one left it: [PATH] does not grow call after call. *)
Theorem webdriver_extends_path_once host opts wire opts' wire' σ :
  (∀ k, k ≠ "PATH" →
        environ (final (__get_firefox_webdriver host opts wire σ)) !! k
          = environ σ !! k) ∧
  (h_system host ≠ "Windows" →
     environ (final (__get_firefox_webdriver host opts wire σ)) = environ σ) ∧
  (environ (final (__get_firefox_webdriver host opts wire σ)) !! "PATH"
     = environ σ !! "PATH" ∨
   ∃ path,
     h_system host = "Windows" ∧
     h_which host "firefox" = None ∧
     environ σ !! "PATH" = Some path ∧
     Str.find_fails path DEFAULT_WINDWOS_FIREFOX_PATH = true ∧
     environ (final (__get_firefox_webdriver host opts wire σ)) !! "PATH"
       = Some (path +:+ ";" +:+ DEFAULT_WINDWOS_FIREFOX_PATH)) ∧
  environ (final (__get_firefox_webdriver host opts' wire'
                    (final (__get_firefox_webdriver host opts wire σ))))
    = environ (final (__get_firefox_webdriver host opts wire σ)).
Proof.
  rewrite (get_firefox_webdriver_environ host opts' wire').
  rewrite !(get_firefox_webdriver_environ host opts wire σ).
  destruct (String.eqb (h_system host) "Windows") eqn:Hw.
  2: { split_and!; try done. by left. }
  apply String.eqb_eq in Hw.
  destruct (h_which host "firefox") eqn:Hwhich.
  { split_and!; try done. by left. }
  destruct (environ σ !! "PATH") as [path|] eqn:Hpath.
  2: { rewrite Hpath. split_and!; try done. by left. }
  destruct (Str.find_fails path DEFAULT_WINDWOS_FIREFOX_PATH) eqn:Hfind.
  2: { rewrite Hpath, Hfind. split_and!; try done. by left. }
  rewrite lookup_insert_eq. split_and!.
  - intros k Hk. by rewrite lookup_insert_ne.
  - done.
  - right. by exists path.
  - rewrite <- StrFacts.app_assoc.
    by rewrite find_appended.
Qed.


(** ** The environment across a call *)

Lemma env_stable_bind {A B} K (m : M A) (k : A → M B) :
  env_stable K m → (∀ a, env_stable K (k a)) → env_stable K (bind m k).
Proof.
  intros Hm Hk σ x Hx. rewrite final_bind.
  destruct (res (m σ)) as [a|]; [|by apply Hm].
  rewrite (Hk a) by done. by apply Hm.
Qed.

Lemma env_stable_same {A} K (m : M A) :
  (∀ σ, environ (final (m σ)) = environ σ) → env_stable K m.
Proof. intros H σ k _. by rewrite H. Qed.

Lemma env_stable_try_finally {A} K (body : M A) (fin : M unit) :
  env_stable K body → env_stable K fin → env_stable K (try_finally body fin).
Proof.
  intros Hb Hf σ k Hk. rewrite try_finally_run. unfold final at 1. simpl.
  rewrite (Hf _ k) by done. by apply Hb.
Qed.

Section Environment.

Variable host : Host.

Lemma get_firefox_options_final p headless private_mode σ :
  final (__get_firefox_options host p headless private_mode σ) = σ.
Proof.
  unfold __get_firefox_options. rewrite final_bind.
  set (resolve := if Str.falsy_opt p then _ else _).
  assert (Hr : final (resolve σ) = σ).
  { subst resolve. destruct (Str.falsy_opt p); [|done].
    apply get_default_firefox_profile_final. }
  destruct (res (resolve σ)) as [prof|]; [|done].
  rewrite final_bind, Hr. destruct headless; [|done].
  rewrite res_bind, final_bind.
  unfold screeninfo_get_monitors, lift, res at 1 2, final at 2 3 4. simpl.
  by destruct (h_monitors host) as [[|m ms]|].
Qed.

Lemma session_finally_environ σ :
  environ (final (session_finally host σ)) = environ σ.
Proof.
  unfold session_finally. rewrite final_bind.
  unfold driver_quit, res at 1, final at 2 3. simpl.
  destruct (br_quit _); [done|]. simpl. apply cleanup_resources_shrinks.
Qed.

Lemma get_session_data_env_stable profile quiet :
  env_stable (kept_variable host) (get_session_data host profile quiet).
Proof.
  unfold get_session_data.
  apply env_stable_bind.
  { apply env_stable_same. intros σ. destruct (Str.falsy profile); [|done].
    by rewrite get_default_firefox_profile_final. }
  intros p. apply env_stable_bind.
  { apply env_stable_same. intros σ. by destruct quiet. }
  intros _. apply env_stable_bind.
  { apply env_stable_same. intros σ. apply cleanup_resources_shrinks. }
  intros _. apply env_stable_bind.
  { apply env_stable_same. intros σ. by rewrite get_firefox_options_final. }
  intros opts. apply env_stable_bind.
  { intros σ k Hk. rewrite get_firefox_webdriver_environ.
    destruct (String.eqb (h_system host) "Windows") eqn:Hw; [|done].
    apply String.eqb_eq in Hw.
    destruct (h_which host "firefox"); [done|].
    destruct (environ σ !! "PATH") as [path|] eqn:Hpath; [|done].
    destruct (Str.find_fails _ _); [|done].
    destruct Hk as [Hk|Hk]; [|done]. by rewrite lookup_insert_ne. }
  intros _. apply env_stable_try_finally.
  - apply env_stable_same. intros σ. by rewrite session_try_final.
  - apply env_stable_same, session_finally_environ.
Qed.

End Environment.

(** X12. A call of [get_session_data], however it ends, hands the
    environment back as it found it, but for [PATH] on Windows: every
    other variable keeps its value, and off Windows [os.environ] is
    unchanged as a whole. *)
Theorem environment_survives_the_call host profile quiet σ :
  (∀ k, k ≠ "PATH" →
        environ (final (get_session_data host profile quiet σ)) !! k
          = environ σ !! k) ∧
  (h_system host ≠ "Windows" →
     environ (final (get_session_data host profile quiet σ)) = environ σ).
Proof.
  split.
  - intros k Hk. apply get_session_data_env_stable. by left.
  - intros Hw. apply map_eq. intros k.
    apply get_session_data_env_stable. by right.
Qed.


(** ** A cookie without a name or a value *)






(** ** What a return implies *)

Lemma session_try_ok_calls host σ v :
  res (session_try host σ) = Ok v →
  br_get (h_browser host) __BASE_CHAT_URL = None ∧
  br_implicitly_wait (h_browser host) 3 = None ∧
  log (session_try host σ) = page_calls.
Proof.
  unfold session_try, bind, driver_get, driver_implicitly_wait,
    driver_execute_script, driver_get_cookies, lift, raise, ret, res, log, page_calls.
  simpl.
  destruct (br_get _ _); simpl; [discriminate|].
  destruct (br_implicitly_wait _ _); simpl; [discriminate|].
  destruct (br_execute_script _ _) as [[ua|]|]; simpl; try discriminate.
  destruct (Str.falsy ua); simpl; [discriminate|].
  destruct (br_get_cookies _) as [cookies|]; simpl; [|discriminate].
  by destruct (comprehension _ _).
Qed.

(** X14. [get_session_data] returns only when nothing raised anywhere:
    the profile was resolved, the first cleanup returned, the
    constructor, [get] and [implicitly_wait] did not raise, and neither
    did [driver.quit()] nor the trailing cleanup; the driver was then
    asked exactly: launch, the four page calls, quit.  A [SessionData]
    that was built is lost when [quit] or the trailing cleanup raises. *)
Theorem a_return_means_nothing_raised host profile quiet σ v :
  res (get_session_data host profile quiet σ) = Ok v →
  is_ok (res (resolve_profile host profile σ)) = true ∧
  res (__cleanup_resources host σ) = Ok tt ∧
  br_get (h_browser host) __BASE_CHAT_URL = None ∧
  br_implicitly_wait (h_browser host) 3 = None ∧
  br_quit (h_browser host) = None ∧
  (∃ σ1, res (__cleanup_resources host σ1) = Ok tt ∧
         final (get_session_data host profile quiet σ)
           = final (__cleanup_resources host σ1)) ∧
  ∃ opts,
    br_launch (h_browser host) false opts = None ∧
    filter (λ e, is_driver_event e = true)
      (log (get_session_data host profile quiet σ))
      = EvLaunch false opts :: page_calls ++ [EvQuit].
Proof.
  intros Hok.
  (* the steps before the launch *)
  assert (Hfirst : is_ok (res (resolve_profile host profile σ)) = true ∧
                   res (__cleanup_resources host σ) = Ok tt).
  { revert Hok. unfold get_session_data, resolve_profile.
    set (resolve := if Str.falsy profile then _ else _).
    assert (Hf : final (resolve σ) = σ).
    { subst resolve. destruct (Str.falsy profile); [|done].
      apply get_default_firefox_profile_final. }
    rewrite res_bind. destruct (res (resolve σ)) as [p|]; [|discriminate].
    rewrite Hf, res_bind.
    set (announce := if negb quiet then _ else _).
    assert (Ha : res (announce σ) = Ok tt ∧ final (announce σ) = σ).
    { subst announce. by destruct quiet. }
    destruct Ha as [-> ->]. rewrite res_bind.
    by destruct (res (__cleanup_resources host σ)) as [[]|]. }
  destruct Hfirst as [Hresolve Hclean]. split; [done|]. split; [done|].
  destruct (get_session_data_cases host profile quiet σ)
    as [(e & He & _)|[(pre & opts & e & _ & _ & _ & He)
                     |(pre & opts & σ1 & Hl & Hpre & Hb & Hr & Hf)]];
    try congruence.
  simpl in Hl, Hr, Hf. rewrite try_finally_run in Hl, Hr, Hf.
  unfold log at 2 in Hl. unfold res at 2 in Hr. unfold final at 2 in Hf.
  simpl in Hl, Hr, Hf.
  rewrite Hok, session_finally_res, session_try_final in Hr.
  destruct (br_quit (h_browser host)) as [e|] eqn:Hquit; [done|].
  destruct (res (__cleanup_resources host σ1)) as [[]|] eqn:Hc; [|done].
  symmetry in Hr.
  destruct (session_try_ok_calls host σ1 v Hr) as (Hget & Hwait & Hpage).
  split_and!; try done.
  - exists σ1. split; [done|]. rewrite Hf, session_try_final.
    unfold session_finally. rewrite final_bind.
    unfold driver_quit, res at 1, final at 2. simpl. by rewrite Hquit.
  - exists opts. split; [done|].
    destruct (session_finally_log host (final (session_try host σ1)))
      as (after & Hfin & Hafter).
    rewrite Hl, Hfin, Hpage, filter_app, (filter_driver_host pre) by done.
    rewrite filter_cons_True by done. simpl. f_equal.
    rewrite !filter_cons_True by done. by rewrite (filter_driver_fs after).
Qed.


(** * The statements on concrete hosts *)

(** discharging a decidable side condition by evaluation *)
Ltac by_eval :=
  first [ vm_compute; reflexivity
        | refine (bool_decide_unpack _ _); vm_compute; exact I ].

Lemma cookie_is_joined_name_value_pairs_witness :
  ∃ cookies,
    br_get_cookies (h_browser Demo.linux) = Ok cookies ∧
    cookie Demo.session = cookie_header cookies.
Proof.
  apply (cookie_is_joined_name_value_pairs Demo.linux "" true Demo.start).
  by_eval.
Defined.


Lemma browser_is_quit_on_every_exit_witness :
  ∃ before after,
    log (get_session_data Demo.linux_dead "/p" true Demo.start)
      = before ++ EvQuit :: after ∧
    EvLaunch false (Demo.options (Some "/p")) ∈ before ∧
    (EvQuit ∉ before) ∧
    Forall (λ e, is_fs_event e = true) after.
Proof.
  apply (browser_is_quit_on_every_exit Demo.linux_dead "/p" true Demo.start
           false (Demo.options (Some "/p"))); by_eval.
Defined.


Lemma discovery_returns_first_match_witness :
  ∃ pre entry post,
    ["a1.default"; "b2.default-release"; "c3.default-release"]
      = pre ++ entry :: post ∧
    Forall (λ e, is_default_release e = false) pre ∧
    is_default_release entry = true ∧
    res (__get_default_firefox_profile Demo.windows Demo.windows_start)
      = Ok (Some (os_path_join Demo.windows Demo.windows_parent entry)) ∧
    final (__get_default_firefox_profile Demo.windows Demo.windows_start)
      = Demo.windows_start.
Proof.
  apply (discovery_returns_first_match Demo.windows Demo.windows_start
           Demo.windows_parent _ false); by_eval.
Defined.

Lemma discovery_without_match_or_parent_witness :
  res (__get_default_firefox_profile Demo.linux Demo.no_release) = Ok None ∧
  res (__get_default_firefox_profile Demo.linux Demo.no_firefox)
    = Raise (RuntimeError "Unable to retrieve /home/u/.mozilla/firefox directory").
Proof.
  split.
  - apply (discovery_without_match_or_parent Demo.linux Demo.no_release
             "/home/u/.mozilla/firefox" ltac:(by_eval))
      with (entries := ["profiles.ini"; "k2x9.default"]) (lk := false); by_eval.
  - apply (discovery_without_match_or_parent Demo.linux Demo.no_firefox
             "/home/u/.mozilla/firefox" ltac:(by_eval)). by_eval.
Defined.

Lemma unresolved_default_profile_witness :
  (res (get_session_data Demo.linux "" true Demo.no_firefox)
     = Raise (RuntimeError "Unable to retrieve /home/u/.mozilla/firefox directory") ∧
   Forall (λ ev, is_fs_event ev = true)
     (log (get_session_data Demo.linux "" true Demo.no_firefox))) ∧
  o_profile (Demo.options None) = None.
Proof.
  split.
  - apply (unresolved_default_profile Demo.linux Demo.no_firefox
             "/home/u/.mozilla/firefox" true ltac:(by_eval)). by_eval.
  - apply (unresolved_default_profile Demo.linux Demo.no_release
             "/home/u/.mozilla/firefox" true ltac:(by_eval))
      with (entries := ["profiles.ini"; "k2x9.default"]) (lk := false) (wire := false);
      by_eval.
Defined.

Lemma unsupported_platform_is_a_no_op_witness :
  __get_default_firefox_profile Demo.darwin Demo.start = (Ok (Some ""), Demo.start, []) ∧
  __cleanup_resources Demo.darwin Demo.start = (Ok tt, Demo.start, []).
Proof.
  apply (unsupported_platform_is_a_no_op Demo.darwin Demo.start); by_eval.
Defined.

Lemma cleanup_removes_exactly_the_prefixed_directories_witness :
  fs (final (__cleanup_resources Demo.linux Demo.start)) !! "/tmp"
    = Some (Dir ["systemd-private"; "tmpfile.txt"] false) ∧
  fs (final (__cleanup_resources Demo.linux Demo.start)) !! "/tmp/systemd-private"
    = Some (Dir [] false) ∧
  fs (final (__cleanup_resources Demo.linux Demo.start)) !! "/tmp/tmpa1b2c3" = None.
Proof.
  destruct (cleanup_removes_exactly_the_prefixed_directories
              Demo.linux Demo.start "/tmp" Demo.tmp_entries false)
    as ((kept & _ & Hframe) & Hexact & Hreturns); [by_eval..|].
  destruct (Hexact (Hreturns ltac:(by_eval))) as [Hlisting Hgone].
  split_and!.
  - exact Hlisting.
  - apply (Hframe "systemd-private"); by_eval.
  - apply (Hgone "tmpa1b2c3"); by_eval.
Defined.


(** ** Where the specification and the code part *)


(** C5: without [~/.mozilla/firefox], discovery on Linux raises instead
    of returning [None]. *)
Lemma discovery_raises_without_parent :
  profile_parent Demo.linux Demo.no_firefox = Some "/home/u/.mozilla/firefox" ∧
  fs Demo.no_firefox !! "/home/u/.mozilla/firefox" = None ∧
  res (__linux_default_firefox_profile_path Demo.linux Demo.no_firefox)
    = Raise (RuntimeError "Unable to retrieve /home/u/.mozilla/firefox directory") ∧
  res (__get_default_firefox_profile Demo.linux Demo.no_firefox) ≠ Ok None.
Proof. split_and!; [by_eval..|]. vm_compute. discriminate. Qed.

(** C6: with no profile given and no entry ending in [.default-release],
    [get_session_data] raises nothing: it launches the browser with the
    profile [None] and returns a [SessionData]. *)
Lemma retrieval_proceeds_without_profile :
  res (__get_default_firefox_profile Demo.linux Demo.no_release) = Ok None ∧
  res (get_session_data Demo.linux "" true Demo.no_release) = Ok (Some Demo.session) ∧
  EvLaunch false (Demo.options None)
    ∈ log (get_session_data Demo.linux "" true Demo.no_release).
Proof. split_and!; by_eval. Qed.

(** C8: with the first stale directory held, cleanup leaves the second,
    a directory named [tmp_free] that nothing holds, where it was. *)
Lemma cleanup_leaves_a_prefixed_directory :
  is_stale Demo.linux (fs Demo.stuck) "/tmp" "tmp_free" = true ∧
  is_blocked Demo.linux (fs Demo.stuck) "/tmp" "tmp_free" = false ∧
  fs (final (__cleanup_resources Demo.linux Demo.stuck)) !! "/tmp/tmp_free"
    = Some (Dir [] false) ∧
  fs (final (__cleanup_resources Demo.linux Demo.stuck)) !! "/tmp"
    = Some (Dir ["tmp_in_use"; "tmp_free"] false).
Proof. split_and!; by_eval. Qed.


(** ** The further properties on concrete hosts *)

Lemma cleanup_only_removes_prefixed_entries_witness :
  ∃ root entries lk n,
    temp_root Demo.linux Demo.start = Some root ∧
    fs Demo.start !! root = Some (Dir entries lk) ∧
    n ∈ entries ∧
    "/tmp/rust_mozprofile7Kq" = os_path_join Demo.linux root n ∧
    Str.startswith n "tmp" || Str.startswith n "rust_mozpr" = true.
Proof.
  apply (cleanup_only_removes_prefixed_entries Demo.linux Demo.start). by_eval.
Defined.

Lemma cleanup_is_idempotent_witness :
  (∃ kept,
     fs (final (__cleanup_resources Demo.linux Demo.start)) !! "/tmp"
       = Some (Dir kept false) ∧
     Forall (λ n, is_stale Demo.linux
                    (fs (final (__cleanup_resources Demo.linux Demo.start)))
                    "/tmp" n = false) kept) ∧
  res (__cleanup_resources Demo.linux
         (final (__cleanup_resources Demo.linux Demo.start))) = Ok tt ∧
  final (__cleanup_resources Demo.linux
           (final (__cleanup_resources Demo.linux Demo.start)))
    = final (__cleanup_resources Demo.linux Demo.start).
Proof.
  apply (cleanup_is_idempotent Demo.linux Demo.start "/tmp" Demo.tmp_entries false);
    by_eval.
Defined.

Lemma cleanup_cannot_list_the_temp_root_witness :
  __cleanup_resources Demo.linux Hosts.no_tmp
    = (Raise (FileNotFoundError "/tmp"), Hosts.no_tmp, [EvListdir "/tmp"]).
Proof.
  apply (cleanup_cannot_list_the_temp_root Demo.linux Hosts.no_tmp "/tmp");
    [by_eval|]. intros entries lk. vm_compute. discriminate.
Defined.

Lemma discovery_returns_a_listed_release_witness :
  final (__get_default_firefox_profile Demo.linux Demo.start) = Demo.start ∧
  ((h_system Demo.linux ≠ "Windows" ∧ h_system Demo.linux ≠ "Linux" ∧
    "/home/u/.mozilla/firefox/w81z.default-release" = "") ∨
   (∃ parent entries lk entry,
      profile_parent Demo.linux Demo.start = Some parent ∧
      fs Demo.start !! parent = Some (Dir entries lk) ∧
      entry ∈ entries ∧
      is_default_release entry = true ∧
      "/home/u/.mozilla/firefox/w81z.default-release"
        = os_path_join Demo.linux parent entry)).
Proof.
  apply (discovery_returns_a_listed_release Demo.linux Demo.start). by_eval.
Defined.

Lemma windows_needs_its_environment_witness :
  get_session_data Demo.windows "" true Hosts.bare
    = (Raise (TypeError "expected str, bytes or os.PathLike object, not NoneType"),
       Hosts.bare, []) ∧
  res (get_session_data Demo.windows "C:\profile" true Hosts.bare)
    = Raise (KeyError "LOCALAPPDATA").
Proof.
  destruct (windows_needs_its_environment Demo.windows Hosts.bare true)
    as [Happ Hlocal]; [by_eval|].
  split.
  - apply Happ. by_eval.
  - apply Hlocal; by_eval.
Defined.

Lemma browser_is_launched_headless_with_the_profile_witness :
  false = false ∧
  (∃ m ms, h_monitors Demo.linux = Ok (m :: ms) ∧
           Demo.options (Some "/p")
             = headless_options (o_profile (Demo.options (Some "/p"))) m) ∧
  (Str.falsy "/p" = false → o_profile (Demo.options (Some "/p")) = Some "/p").
Proof.
  apply (browser_is_launched_headless_with_the_profile
           Demo.linux "/p" true Demo.start). by_eval.
Defined.

Lemma no_monitor_no_session_witness :
  (∃ e, res (get_session_data Hosts.headless_server "" true Demo.start) = Raise e) ∧
  Forall (λ ev, is_host_event ev = true)
    (log (get_session_data Hosts.headless_server "" true Demo.start)).
Proof.
  apply (no_monitor_no_session Hosts.headless_server "" true Demo.start).
  intros m ms. vm_compute. discriminate.
Defined.


Lemma a_return_means_nothing_raised_witness :
  is_ok (res (resolve_profile Demo.linux "" Demo.start)) = true ∧
  res (__cleanup_resources Demo.linux Demo.start) = Ok tt ∧
  br_get (h_browser Demo.linux) __BASE_CHAT_URL = None ∧
  br_implicitly_wait (h_browser Demo.linux) 3 = None ∧
  br_quit (h_browser Demo.linux) = None ∧
  (∃ σ1, res (__cleanup_resources Demo.linux σ1) = Ok tt ∧
         final (get_session_data Demo.linux "" true Demo.start)
           = final (__cleanup_resources Demo.linux σ1)) ∧
  ∃ opts,
    br_launch (h_browser Demo.linux) false opts = None ∧
    filter (λ e, is_driver_event e = true)
      (log (get_session_data Demo.linux "" true Demo.start))
      = EvLaunch false opts :: page_calls ++ [EvQuit].
Proof.
  apply (a_return_means_nothing_raised Demo.linux "" true Demo.start
           (Some Demo.session)). by_eval.
Defined.
